(** * Credit-card statement parser: the extraction pipeline and its insights

    A shallow embedding of [backend/parser.py] (class [CreditCardParser]) and of
    [generate_insights] from [backend/app.py], with the properties of the
    design document stated and settled against it.

    Conventions of the embedding.
    - A Python [str] is a Rocq [string] holding its UTF-8 encoding.  Searching
      for text, deleting text and slicing between two positions that were
      found by searching give the same text on the encoding as on the code
      points; lengths are counted in code points ([py_len]).
    - A Python [float] is a binary64 number of the kernel ([PrimFloat]): the
      operations round as Python's do.
    - The collaborators (pdfplumber, pytesseract, the chat-completion
      service) are inputs of the model: what each call answers, a value or an
      exception.  Calls are logged, in order, in the state of the monad.
    - [json.loads], [float(str)] and [repr] of a non-string are functions of
      the Python runtime, not of this repository: the pipeline is defined over
      them as section variables, and closed examples instantiate them with
      small decoders that agree with Python on the texts used.
    - [print] is not modelled, and exceptions are the subclasses of
      [Exception]. *)

From Stdlib Require Import ZArith List String Ascii Bool Lia Floats DecimalString.
From stdpp Require Import gmap strings.
Import ListNotations.

#[local] Set Warnings "-register-all,-inexact-float,-abstract-large-number".
#[local] Open Scope Z_scope.

(** ** Python strings *)

Module Str.

Definition of_bytes (l : list N) : string :=
  fold_right (fun b s => String (ascii_of_N b) s) EmptyString l.

Definition dquote : string := of_bytes [34%N].
Definition newline : string := of_bytes [10%N].

(** A byte [10xxxxxx] continues a code point; every other byte starts one. *)
Definition is_continuation (a : ascii) : bool :=
  let n := N_of_ascii a in (128 <=? n)%N && (n <? 192)%N.

(** [len(s)] *)
Fixpoint py_len (s : string) : Z :=
  match s with
  | EmptyString => 0
  | String a s' => (if is_continuation a then 0 else 1) + py_len s'
  end.

(** [needle in s] *)
Fixpoint contains (s needle : string) : bool :=
  String.prefix needle s
  || match s with
     | EmptyString => false
     | String _ s' => contains s' needle
     end.

(** [s.find(c)] for a one-character [c]: the first position, or -1. *)
Fixpoint find (s : string) (c : ascii) : Z :=
  match s with
  | EmptyString => -1
  | String a s' =>
      if Ascii.eqb a c then 0
      else let r := find s' c in if r <? 0 then -1 else r + 1
  end.

(** [s.rfind(c)] for a one-character [c]: the last position, or -1. *)
Fixpoint rfind (s : string) (c : ascii) : Z :=
  match s with
  | EmptyString => -1
  | String a s' =>
      let r := rfind s' c in
      if 0 <=? r then r + 1 else if Ascii.eqb a c then 0 else -1
  end.

(** A slice bound as Python normalises it: negative bounds count from the
    end, and every bound is clamped to the string. *)
Definition slice_bound (len i : Z) : Z :=
  if i <? 0 then Z.max 0 (i + len) else Z.min i len.

(** [s[a:b]] *)
Definition slice (s : string) (a b : Z) : string :=
  let len := Z.of_nat (String.length s) in
  let a' := slice_bound len a in
  let b' := slice_bound len b in
  substring (Z.to_nat a') (Z.to_nat (b' - a')) s.

(** [s.replace(old, '')] for a non-empty [old]: occurrences are deleted
    from left to right, without overlap.  [skip] counts the characters of
    the occurrence being deleted that are still to pass. *)
Fixpoint delete_from (old : string) (skip : nat) (s : string) : string :=
  match s with
  | EmptyString => EmptyString
  | String a s' =>
      match skip with
      | S k => delete_from old k s'
      | O =>
          if String.prefix old s
          then delete_from old (Nat.pred (String.length old)) s'
          else String a (delete_from old 0 s')
      end
  end.

Definition delete_all (old s : string) : string := delete_from old 0 s.

(** The characters [str.strip()] removes (those with [isspace()]), encoded:
    U+0009-000D, U+001C-001F, U+0020, U+0085, U+00A0, U+1680, U+2000-200A,
    U+2028, U+2029, U+202F, U+205F, U+3000. *)
Definition whitespace : list string :=
  map of_bytes
    ([[9]; [10]; [11]; [12]; [13]; [28]; [29]; [30]; [31]; [32];
      [194; 133]; [194; 160]; [225; 154; 128];
      [226; 128; 128]; [226; 128; 129]; [226; 128; 130]; [226; 128; 131];
      [226; 128; 132]; [226; 128; 133]; [226; 128; 134]; [226; 128; 135];
      [226; 128; 136]; [226; 128; 137]; [226; 128; 138];
      [226; 128; 168]; [226; 128; 169]; [226; 128; 175];
      [226; 129; 159]; [227; 128; 128]])%N.

(** The length of the entry of [table] that [s] starts with, 0 if none. *)
Fixpoint starts_with_any (table : list string) (s : string) : nat :=
  match table with
  | [] => O
  | w :: table' =>
      if String.prefix w s then String.length w else starts_with_any table' s
  end.

Fixpoint strip_front (table : list string) (skip : nat) (s : string) : string :=
  match s with
  | EmptyString => EmptyString
  | String _ s' =>
      match skip with
      | S k => strip_front table k s'
      | O =>
          match starts_with_any table s with
          | O => s
          | S k => strip_front table k s'
          end
      end
  end.

Fixpoint rev (s : string) : string :=
  match s with
  | EmptyString => EmptyString
  | String a s' => rev s' +:+ String a EmptyString
  end.

Definition lstrip (s : string) : string := strip_front whitespace 0 s.

Definition rstrip (s : string) : string :=
  rev (strip_front (map rev whitespace) 0 (rev s)).

(** [s.strip()] *)
Definition strip (s : string) : string := rstrip (lstrip s).

Definition lower_ascii (a : ascii) : ascii :=
  let n := N_of_ascii a in
  if (65 <=? n)%N && (n <=? 90)%N then ascii_of_N (n + 32) else a.

(** [s.lower()].  Besides A-Z, two characters lower-case to ASCII letters:
    U+0130 (to [i] and U+0307) and U+212A (to [k]).  The mapping of the
    other non-ASCII letters stays within non-ASCII text and is not applied,
    so the result has Python's ASCII content. *)
Fixpoint lower (s : string) : string :=
  match s with
  | EmptyString => EmptyString
  | String a s1 =>
      match N_of_ascii a, s1 with
      | 196%N, String b s2 =>
          if (N_of_ascii b =? 176)%N
          then "i" +:+ of_bytes [204; 135]%N +:+ lower s2
          else String a (lower s1)
      | 226%N, String b (String c s3) =>
          if (N_of_ascii b =? 132)%N && (N_of_ascii c =? 170)%N
          then "k" +:+ lower s3
          else String a (lower s1)
      | _, _ => String (lower_ascii a) (lower s1)
      end
  end.

(** [sep.join(l)] *)
Fixpoint join (sep : string) (l : list string) : string :=
  match l with
  | [] => EmptyString
  | [x] => x
  | x :: l' => x +:+ sep +:+ join sep l'
  end.

(** [s[:n]] for [n >= 0]: the first [n] code points. *)
Fixpoint take (n : nat) (s : string) : string :=
  match s with
  | EmptyString => EmptyString
  | String a s' =>
      if is_continuation a then String a (take n s')
      else match n with
           | O => EmptyString
           | S k => String a (take k s')
           end
  end.

(** [str(z)] of an [int] *)
Definition of_Z (z : Z) : string := NilZero.string_of_int (Z.to_int z).

End Str.

(** ** Python values, exceptions and effects *)

(** The values [json.loads] builds. *)
Inductive pyval : Type :=
| PNone
| PBool (b : bool)
| PInt (z : Z)
| PFloat (f : float)
| PStr (s : string)
| PList (l : list pyval)
| PDict (d : gmap string pyval).

Abbreviation dict := (gmap string pyval).

(** [bool(v)] *)
Definition truthy (v : pyval) : bool :=
  match v with
  | PNone => false
  | PBool b => b
  | PInt z => negb (z =? 0)
  | PFloat f => negb (PrimFloat.eqb f 0)
  | PStr s => negb (String.eqb s "")
  | PList l => match l with [] => false | _ => true end
  | PDict d => match map_to_list d with [] => false | _ => true end
  end.

(** [v == s] for a string [s]: only a string equals a string. *)
Definition eq_str (v : pyval) (s : string) : bool :=
  match v with
  | PStr s' => String.eqb s' s
  | _ => false
  end.

Definition type_name (v : pyval) : string :=
  match v with
  | PNone => "NoneType"
  | PBool _ => "bool"
  | PInt _ => "int"
  | PFloat _ => "float"
  | PStr _ => "str"
  | PList _ => "list"
  | PDict _ => "dict"
  end.

(** The exception classes the handlers of the code tell apart, and any other
    subclass of [Exception] by its name. *)
Inductive exn_class : Type :=
| Exception
| ValueError
| JSONDecodeError
| TypeError
| OverflowError
| AttributeError
| OtherError (name : string).

(** An exception: its class and [str(e)]. *)
Record exn : Type := Exn { exn_cls : exn_class; exn_str : string }.

(** [except Exception] *)
Definition is_Exception (e : exn) : bool := true.

(** [except json.JSONDecodeError] *)
Definition is_JSONDecodeError (e : exn) : bool :=
  match exn_cls e with JSONDecodeError => true | _ => false end.

(** [except (ValueError, TypeError)]: [JSONDecodeError] derives from
    [ValueError]. *)
Definition is_ValueError_or_TypeError (e : exn) : bool :=
  match exn_cls e with
  | ValueError | JSONDecodeError | TypeError => true
  | _ => false
  end.

Inductive outcome (A : Type) : Type :=
| Return (a : A)
| Raise (e : exn).
Arguments Return {A} a.
Arguments Raise {A} e.

(** Computations that read and change a state and may raise.  A handler runs
    in the state the failing computation left: nothing is rolled back. *)
Section Monad.
Context {St : Type}.

Definition M (A : Type) : Type := St -> St * outcome A.

Definition ret {A} (a : A) : M A := fun s => (s, Return a).

Definition raise {A} (e : exn) : M A := fun s => (s, Raise e).

Definition bind {A B} (m : M A) (k : A -> M B) : M B :=
  fun s =>
    match m s with
    | (s', Return a) => k a s'
    | (s', Raise e) => (s', Raise e)
    end.

(** [try: m  except <classes> as e: h e] *)
Definition try_except {A} (m : M A) (catches : exn -> bool) (h : exn -> M A) : M A :=
  fun s =>
    match m s with
    | (s', Raise e) => if catches e then h e s' else (s', Raise e)
    | r => r
    end.

Definition modify (f : St -> St) : M unit := fun s => (f s, Return tt).

Definition lift {A} (o : outcome A) : M A := fun s => (s, o).
End Monad.
Arguments M St A : clear implicits.

Notation "x <- m ;; k" := (bind m (fun x => k))
  (at level 100, m at next level, right associativity).
Notation "m ;;; k" := (bind m (fun _ => k))
  (at level 100, right associativity).

(** ** Python floats *)

Module Flt.

(** [float(z)] of an [int]; exact for [0 <= z < 2^53], which covers the
    integers the code converts (counts, and its constants). *)
Definition of_int (z : Z) : float := PrimFloat.of_uint63 (Uint63.of_Z z).

(** [a > b] *)
Definition gt (a b : float) : bool := PrimFloat.ltb b a.

(** The integer nearest to [k * m * 2^e], ties to the even one. *)
Definition round_half_even (k : Z) (m : positive) (e : Z) : Z :=
  let n := k * Zpos m in
  if 0 <=? e then n * 2 ^ e
  else
    let d := 2 ^ (- e) in
    let q := n / d in
    let r := n mod d in
    if 2 * r <? d then q
    else if d <? 2 * r then q + 1
    else if Z.even q then q else q + 1.

(** [round(x, 1)]: the exact value of [x] is rounded to one decimal, ties
    to even, and the decimal converted back.  The conversion is the
    correctly rounded quotient by ten while ten times [x] stays below
    [2^53]. *)
Definition round1 (x : float) : float :=
  match Prim2SF x with
  | S754_finite s m e =>
      let r := PrimFloat.div (of_int (round_half_even 10 m e)) (of_int 10) in
      if s then PrimFloat.opp r else r
  | _ => x
  end.

(** [int(x)]: truncation toward zero; infinities and NaN raise. *)
Definition to_int (x : float) : outcome Z :=
  match Prim2SF x with
  | S754_zero _ => Return 0
  | S754_infinity _ =>
      Raise (Exn OverflowError "cannot convert float infinity to integer")
  | S754_nan => Raise (Exn ValueError "cannot convert float NaN to integer")
  | S754_finite s m e =>
      let a := if 0 <=? e then Zpos m * 2 ^ e else Zpos m / 2 ^ (- e) in
      Return (if s then - a else a)
  end.

(** Commas between groups of three digits; [s] holds the digits from the
    last to the first, [n] counts the digits of the group being filled. *)
Fixpoint group3 (n : nat) (s : string) : string :=
  match s with
  | EmptyString => EmptyString
  | String a s' =>
      match n with
      | 3%nat => String "," (String a (group3 1 s'))
      | _ => String a (group3 (S n) s')
      end
  end.

Definition with_commas (z : Z) : string := Str.rev (group3 0 (Str.rev (Str.of_Z z))).

Definition two_digits (z : Z) : string :=
  if z <? 10 then "0" +:+ Str.of_Z z else Str.of_Z z.

(** [f'{x:,.2f}'] *)
Definition format_2f (x : float) : string :=
  match Prim2SF x with
  | S754_nan => "nan"
  | S754_infinity s => if s then "-inf" else "inf"
  | S754_zero s => if s then "-0.00" else "0.00"
  | S754_finite s m e =>
      let k := round_half_even 100 m e in
      (if s then "-" else "") +:+ with_commas (k / 100) +:+ "." +:+ two_digits (k mod 100)
  end.

End Flt.

(** ** The collaborators *)

(** A page of an opened document, by what the two ways of reading it answer:
    [page.extract_text()] (pdfplumber gives [None] for a page without text),
    and [page.to_image(resolution=300).original] followed by
    [pytesseract.image_to_string]. *)
Record Page : Type := {
  extract_text : outcome (option string);
  image_to_string : outcome string
}.

Record Collaborators : Type := {
  (** [pdfplumber.open(pdf_path)] and its [pages] *)
  pdfplumber_open : string -> outcome (list Page);
  (** [client.chat.completions.create(...)] with the key and the prompt, and
      [completion.choices[0].message.content] of what it returns *)
  chat_completions_create : string -> string -> outcome (option string)
}.

(** The calls made to the collaborators. *)
Inductive event : Type :=
| OpenPdf (pdf_path : string)
| ExtractText (page_num : nat)
| Recognize (page_num : nat)
| ChatCompletion (prompt : string).

(** A call: logged, then answered. *)
Definition call {A} (ev : event) (answer : outcome A) : M (list event) A :=
  fun log => (log ++ [ev], answer).

(** [self]: [os.getenv('GROQ_API_KEY')] as [__init__] stored it. *)
Record CreditCardParser : Type := { groq_api_key : option string }.

Definition sentinel : string := "Not found".

(** ** [backend/parser.py] *)

Section Parser.
(** [json.loads] *)
Variable json_loads : string -> outcome pyval.
(** [repr] *)
Variable py_repr : pyval -> string.
Variable env : Collaborators.

(** [str(v)]: a string is its own text. *)
Definition py_str (v : pyval) : string :=
  match v with
  | PStr s => s
  | _ => py_repr v
  end.

(** [not text or len(text.strip()) < 40] *)
Definition needs_ocr (text : option string) : bool :=
  match text with
  | None => true
  | Some t => String.eqb t "" || (Str.py_len (Str.strip t) <? 40)
  end.

(** [text or ""] *)
Definition or_empty (text : option string) : string :=
  match text with
  | None => ""
  | Some t => t
  end.

(** The body of the loop over the pages. *)
Definition resolve_page (page_num : nat) (page : Page) : M (list event) string :=
  text <- call (ExtractText page_num) (extract_text page) ;;
  text <- (if needs_ocr text
           then try_except
                  (t <- call (Recognize page_num) (image_to_string page) ;; ret (Some t))
                  is_Exception
                  (fun ocr_error => ret (Some ""))
           else ret text) ;;
  ret (or_empty text).

Fixpoint resolve_pages (page_num : nat) (pages : list Page) : M (list event) (list string) :=
  match pages with
  | [] => ret []
  | page :: pages' =>
      text <- resolve_page page_num page ;;
      texts <- resolve_pages (S page_num) pages' ;;
      ret (text :: texts)
  end.

Definition extract_text_from_pdf (pdf_path : string) : M (list event) string :=
  try_except
    (pages <- call (OpenPdf pdf_path) (pdfplumber_open env pdf_path) ;;
     texts <- resolve_pages 1 pages ;;
     ret (Str.join Str.newline texts))
    is_Exception
    (fun e => raise (Exn Exception ("Error reading PDF: " +:+ exn_str e))).

(** [not self.groq_api_key] *)
Definition key_missing (self : CreditCardParser) : bool :=
  match groq_api_key self with
  | None => true
  | Some k => String.eqb k ""
  end.

Definition query_groq (self : CreditCardParser) (prompt : string) : M (list event) string :=
  if key_missing self
  then raise (Exn Exception "GROQ_API_KEY not configured. Please add it to .env file.")
  else
    try_except
      (response <- call (ChatCompletion prompt)
                     (chat_completions_create env (or_empty (groq_api_key self)) prompt) ;;
       (* [len(response)] in the message printed next *)
       match response with
       | Some r => ret r
       | None => raise (Exn TypeError "object of type 'NoneType' has no len()")
       end)
      is_Exception
      (fun e => raise (Exn Exception ("Groq API Error: " +:+ exn_str e))).

(** Step 2: the prompt, with the first 7000 characters of the text. *)
Definition build_prompt (pdf_text : string) : string :=
  Str.join Str.newline
    [ "";
      "You are an expert financial document parser.";
      "Extract the following fields from this credit card statement:";
      "";
      "1. issuer (bank name)";
      "2. card_last4 (last 4 digits of card number)";
      "3. statement_date (billing cycle or statement period)";
      "4. due_date (payment due date)";
      "5. total_balance (total amount due or outstanding balance)";
      "6. minimum_payment (minimum payment amount)";
      "";
      "Return ONLY a valid JSON object with these exact keys. No extra text.";
      "If a field is missing, use " +:+ Str.dquote +:+ sentinel +:+ Str.dquote +:+ " as its value.";
      "";
      "Statement text:";
      Str.take 7000 pdf_text;
      "" ].

(** Step 4: the text from the first opening brace to the last closing
    brace, decoded. *)
Definition extract_json (response_text : string) : outcome pyval :=
  if Str.contains response_text "{" && Str.contains response_text "}"
  then
    let json_start := Str.find response_text "{" in
    let json_end := Str.rfind response_text "}" + 1 in
    let json_str := Str.slice response_text json_start json_end in
    json_loads json_str
  else Raise (Exn ValueError "No JSON object found in AI response").

(** [data.get], [data[...]] and [in] need a dictionary. *)
Definition as_dict (data : pyval) : outcome dict :=
  match data with
  | PDict d => Return d
  | v => Raise (Exn AttributeError ("'" +:+ type_name v +:+ "' object has no attribute 'get'"))
  end.

(** Step 5, the chain of tests on the lower-cased text. *)
Definition infer_issuer (txt : string) : string :=
  if Str.contains txt "hsbc" then "HSBC"
  else if Str.contains txt "chase" then "Chase"
  else if Str.contains txt "amex" || Str.contains txt "american express" then "American Express"
  else if Str.contains txt "citi" then "Citi"
  else if Str.contains txt "discover" then "Discover"
  else if Str.contains txt "capital one" then "Capital One"
  else "Unknown".

(** [not data.get('issuer') or data['issuer'] == "Not found"] *)
Definition issuer_missing (data : dict) : bool :=
  match data !! "issuer" with
  | None => true
  | Some v => negb (truthy v) || eq_str v sentinel
  end.

Definition repair_issuer (pdf_text : string) (data : dict) : dict :=
  if issuer_missing data
  then <["issuer" := PStr (infer_issuer (Str.lower pdf_text))]> data
  else data.

(** Step 6 *)
Definition clean_number (s : string) : string :=
  Str.strip (Str.delete_all "," (Str.delete_all "₹" (Str.delete_all "$" s))).

Definition cleanup_field (data : dict) (key : string) : dict :=
  match data !! key with
  | Some v =>
      if negb (eq_str v sentinel)
      then <[key := PStr (clean_number (py_str v))]> data
      else data
  | None => data
  end.

Definition cleanup_numeric (data : dict) : dict :=
  fold_left cleanup_field ["total_balance"; "minimum_payment"] data.

(** Step 7 *)
Definition required : list string :=
  ["card_last4"; "statement_date"; "due_date"; "total_balance"; "minimum_payment"].

(** [data.get(f) and data[f] != "Not found"] *)
Definition is_extracted (data : dict) (f : string) : bool :=
  match data !! f with
  | None => false
  | Some v => truthy v && negb (eq_str v sentinel)
  end.

Definition count_extracted (data : dict) : Z :=
  Z.of_nat (length (List.filter (is_extracted data) required)).

Definition success_rate_of (extracted : Z) : float :=
  (Flt.of_int extracted / Flt.of_int (Z.of_nat (length required)) * Flt.of_int 100)%float.

Definition success_result (data : dict) : dict :=
  let extracted := count_extracted data in
  let success_rate := success_rate_of extracted in
  <["success" := PBool true]>
    (<["data" := PDict data]>
       (<["extracted_fields" := PInt extracted]>
          (<["total_fields" := PInt (Z.of_nat (length required))]>
             (<["success_rate" := PFloat (Flt.round1 success_rate)]>
                (<["method" := PStr "AI-Powered (Groq Llama-3.1)"]> ∅))))).

Definition failure (error : string) : dict :=
  <["success" := PBool false]> (<["error" := PStr error]> ∅).

Definition decode_failure (e : exn) (response_text : string) : dict :=
  <["success" := PBool false]>
    (<["error" := PStr ("AI returned invalid JSON: " +:+ exn_str e)]>
       (<["raw_response" := PStr response_text]> ∅)).

(** Steps 4 to 7, the body of the inner [try]. *)
Definition analyze (pdf_text response_text : string) : M (list event) dict :=
  data <- lift (extract_json response_text) ;;
  data <- lift (as_dict data) ;;
  let data := repair_issuer pdf_text data in
  let data := cleanup_numeric data in
  ret (success_result data).

Definition parse (self : CreditCardParser) (pdf_path : string) : M (list event) dict :=
  try_except
    (pdf_text <- extract_text_from_pdf pdf_path ;;
     if String.eqb (Str.strip pdf_text) ""
     then ret (failure "Could not extract text from PDF")
     else
       let prompt := build_prompt pdf_text in
       response_text <- query_groq self prompt ;;
       try_except
         (analyze pdf_text response_text)
         is_JSONDecodeError
         (fun e => ret (decode_failure e response_text)))
    is_Exception
    (fun e => ret (failure (exn_str e))).

(** For the proofs: what step 6 makes of a value, the sentinel as it is and
    anything else a cleaned string. *)
Definition cleaned (v : pyval) : pyval :=
  if eq_str v sentinel then v else PStr (clean_number (py_str v)).

(** For the proofs: what [parse] returns once the model has responded
    ([parse_responded] below proves it). *)
Definition interpreted (pdf_text response_text : string) : dict :=
  match extract_json response_text with
  | Raise e =>
      if is_JSONDecodeError e then decode_failure e response_text else failure (exn_str e)
  | Return v =>
      match as_dict v with
      | Raise e => failure (exn_str e)
      | Return d => success_result (cleanup_numeric (repair_issuer pdf_text d))
      end
  end.

(** For the proofs: the four ways through [parse], each with the log it
    leaves and the result it returns ([parse_path] below proves there is no
    other). *)
Inductive path (self : CreditCardParser) (pdf_path : string) (log : list event)
  : list event -> dict -> Prop :=
| ReadFailure log0 e :
    extract_text_from_pdf pdf_path log = (log0, Raise e) ->
    path self pdf_path log log0 (failure (exn_str e))
| NoText log0 pdf_text :
    extract_text_from_pdf pdf_path log = (log0, Return pdf_text) ->
    String.eqb (Str.strip pdf_text) "" = true ->
    path self pdf_path log log0 (failure "Could not extract text from PDF")
| QueryFailure log0 log1 pdf_text e :
    extract_text_from_pdf pdf_path log = (log0, Return pdf_text) ->
    String.eqb (Str.strip pdf_text) "" = false ->
    query_groq self (build_prompt pdf_text) log0 = (log1, Raise e) ->
    path self pdf_path log log1 (failure (exn_str e))
| Responded log0 log1 pdf_text response_text :
    extract_text_from_pdf pdf_path log = (log0, Return pdf_text) ->
    String.eqb (Str.strip pdf_text) "" = false ->
    query_groq self (build_prompt pdf_text) log0 = (log1, Return response_text) ->
    path self pdf_path log log1 (interpreted pdf_text response_text).

End Parser.

(** ** [generate_insights] of [backend/app.py] *)

Record Insight : Type := {
  type : string;
  title : string;
  message : string;
  priority : string
}.

Section Insights.
(** [repr] *)
Variable py_repr : pyval -> string.
(** [float(s)] of a string *)
Variable py_float : string -> outcome float.

(** The currency sign as the literals of [app.py] hold it. *)
Definition currency : string := "‚Çπ".

(** [str(v).replace(',', '').replace('‚Çπ', '').replace('$', '').strip()] *)
Definition strip_amount (v : pyval) : string :=
  Str.strip (Str.delete_all "$" (Str.delete_all currency (Str.delete_all "," (py_str py_repr v)))).

(** [insights.append(i)] *)
Definition append (i : Insight) : M (list Insight) unit :=
  modify (fun insights => insights ++ [i]).

Definition when (c : bool) (m : M (list Insight) unit) : M (list Insight) unit :=
  if c then m else ret tt.

(** The body of the inner [try]. *)
Definition insight_rules (total_balance minimum_payment : pyval) : M (list Insight) unit :=
  balance <- lift (py_float (strip_amount total_balance)) ;;
  min_payment <- lift (py_float (strip_amount minimum_payment)) ;;
  when (Flt.gt balance 0 && Flt.gt min_payment 0)
    ((* High balance warning *)
     when (Flt.gt balance 5000)
       (append
          {| type := "warning";
             title := "High Balance Alert";
             message := "Balance of " +:+ currency +:+ Flt.format_2f balance
                        +:+ " is significant. Consider paying more than minimum.";
             priority := "high" |}) ;;;
     (* Minimum payment analysis *)
     let months_to_payoff :=
       if Flt.gt min_payment 0 then (balance / min_payment)%float else 999%float in
     let estimated_interest := (balance * 0.18 * (months_to_payoff / 12))%float in
     when (Flt.gt months_to_payoff 24)
       (months <- lift (Flt.to_int months_to_payoff) ;;
        append
          {| type := "critical";
             title := "Long Payoff Period";
             message := "Paying minimum only will take " +:+ Str.of_Z months
                        +:+ " months. Estimated interest: " +:+ currency
                        +:+ Flt.format_2f estimated_interest;
             priority := "critical" |}) ;;;
     (* Savings recommendation *)
     let recommended_payment := (balance / 12)%float in
     when (Flt.gt recommended_payment min_payment)
       (let savings := (estimated_interest - balance * 0.18 * 1)%float in
        when (Flt.gt savings 0)
          (append
             {| type := "info";
                title := "Smart Payment Tip";
                message := "Pay " +:+ currency +:+ Flt.format_2f recommended_payment
                           +:+ "/month to save ~" +:+ currency +:+ Flt.format_2f savings
                           +:+ " in interest";
                priority := "medium" |}))).

(** The function, as a computation on the list [insights]. *)
Definition generate_insights_body (data : dict) : M (list Insight) unit :=
  try_except
    (match data !! "total_balance", data !! "minimum_payment" with
     | Some total_balance, Some minimum_payment =>
         try_except
           (insight_rules total_balance minimum_payment)
           is_ValueError_or_TypeError
           (fun e => ret tt)
     | _, _ => ret tt
     end)
    is_Exception
    (fun e => ret tt).

(** What a call does: the list it returns, or the exception it raises. *)
Definition generate_insights (data : dict) : outcome (list Insight) :=
  match generate_insights_body data [] with
  | (insights, Return _) => Return insights
  | (_, Raise e) => Raise e
  end.

(** The first insight of the list, if the call returns one. *)
Definition generate_insights_first (data : dict) : option Insight :=
  match generate_insights data with
  | Return (i :: _) => Some i
  | _ => None
  end.

End Insights.

(** ** The runtime functions on the texts of the examples

    The pipeline is stated for any [json.loads], [repr] and [float].  To run
    it on closed inputs, this module decodes the fragment the examples need;
    what it answers there is what Python answers. *)

Module Runtime.

(** [JSONDecodeError(msg, doc, pos)]: the message with the line, the
    column and the position. *)
Definition after_last_newline (s : string) : string :=
  Str.slice s (Str.rfind s "010"%char + 1) (Z.of_nat (String.length s)).

Fixpoint count_newlines (s : string) : Z :=
  match s with
  | EmptyString => 0
  | String a s' => (if Ascii.eqb a "010"%char then 1 else 0) + count_newlines s'
  end.

Definition decode_error (msg doc : string) (pos : nat) : exn :=
  let before := Str.take pos doc in
  Exn JSONDecodeError
    (msg +:+ ": line " +:+ Str.of_Z (1 + count_newlines before)
         +:+ " column " +:+ Str.of_Z (Str.py_len (after_last_newline before) + 1)
         +:+ " (char " +:+ Str.of_Z (Z.of_nat pos) +:+ ")").

(** Where the decoder of an object with string members stands. *)
Inductive state : Type :=
| Start
| Member (first : bool)
| InKey (from : nat) (acc : string)
| Colon (key : string)
| Value (key : string)
| InValue (key : string) (from : nat) (acc : string)
| Next
| Done.

Definition is_json_space (a : ascii) : bool :=
  match N_of_ascii a with
  | 32%N | 9%N | 10%N | 13%N => true
  | _ => false
  end.

Definition is_quote (a : ascii) : bool := (N_of_ascii a =? 34)%N.

(** A character of the text of a string: JSON forbids the control
    characters, and the escapes a backslash starts are outside the
    fragment. *)
Definition string_char (a : ascii) (doc : string) (pos : nat) : option exn :=
  if (N_of_ascii a <? 32)%N then Some (decode_error "Invalid control character at" doc pos)
  else if (N_of_ascii a =? 92)%N then Some (decode_error "Invalid \escape" doc pos)
  else None.

Definition step (doc : string) (st : state) (d : dict) (pos : nat) (a : ascii)
    : exn + (state * dict) :=
  match st with
  | Start =>
      if is_json_space a then inr (Start, d)
      else if Ascii.eqb a "{" then inr (Member true, d)
      else inl (decode_error "Expecting value" doc pos)
  | Member first =>
      if is_json_space a then inr (Member first, d)
      else if is_quote a then inr (InKey pos "", d)
      else if first && Ascii.eqb a "}" then inr (Done, d)
      else inl (decode_error "Expecting property name enclosed in double quotes" doc pos)
  | InKey from acc =>
      if is_quote a then inr (Colon acc, d)
      else
        match string_char a doc pos with
        | Some e => inl e
        | None => inr (InKey from (acc +:+ String a EmptyString), d)
        end
  | Colon key =>
      if is_json_space a then inr (Colon key, d)
      else if Ascii.eqb a ":" then inr (Value key, d)
      else inl (decode_error "Expecting ':' delimiter" doc pos)
  | Value key =>
      if is_json_space a then inr (Value key, d)
      else if is_quote a then inr (InValue key pos "", d)
      else inl (decode_error "Expecting value" doc pos)
  | InValue key from acc =>
      if is_quote a then inr (Next, <[key := PStr acc]> d)
      else
        match string_char a doc pos with
        | Some e => inl e
        | None => inr (InValue key from (acc +:+ String a EmptyString), d)
        end
  | Next =>
      if is_json_space a then inr (Next, d)
      else if Ascii.eqb a "," then inr (Member false, d)
      else if Ascii.eqb a "}" then inr (Done, d)
      else inl (decode_error "Expecting ',' delimiter" doc pos)
  | Done =>
      if is_json_space a then inr (Done, d)
      else inl (decode_error "Extra data" doc pos)
  end.

(** The end of the text. *)
Definition finish (doc : string) (st : state) (d : dict) (pos : nat) : outcome pyval :=
  match st with
  | Done => Return (PDict d)
  | Start | Value _ => Raise (decode_error "Expecting value" doc pos)
  | Member _ => Raise (decode_error "Expecting property name enclosed in double quotes" doc pos)
  | InKey from _ | InValue _ from _ => Raise (decode_error "Unterminated string starting at" doc from)
  | Colon _ => Raise (decode_error "Expecting ':' delimiter" doc pos)
  | Next => Raise (decode_error "Expecting ',' delimiter" doc pos)
  end.

(** [pos] counts the code points before the character read. *)
Fixpoint run (doc : string) (st : state) (d : dict) (pos : nat) (s : string) : outcome pyval :=
  match s with
  | EmptyString => finish doc st d pos
  | String a s' =>
      match step doc st d pos a with
      | inl e => Raise e
      | inr (st', d') =>
          run doc st' d' (match s' with
                          | String b _ => if Str.is_continuation b then pos else S pos
                          | EmptyString => S pos
                          end) s'
      end
  end.

(** [json.loads] on objects whose members are strings without escapes, and
    on texts that are not JSON.  (On JSON outside this fragment, such as
    numbers or nested objects, it reports an error where [json.loads]
    decodes.) *)
Definition json_loads (doc : string) : outcome pyval := run doc Start ∅ 0 doc.

(** [repr] of [None], of a Boolean and of an integer.  The other values
    are not met: the decoder above builds strings only. *)
Definition py_repr (v : pyval) : string :=
  match v with
  | PNone => "None"
  | PBool b => if b then "True" else "False"
  | PInt z => Str.of_Z z
  | v => "<" +:+ type_name v +:+ ">"
  end.

(** The double nearest to [n / d], ties to even, for [0 <= n] and [0 < d]:
    the quotient is cut to 53 bits (fewer below the normal range) and
    rounded on the exact remainder. *)
Definition nearest_quotient (n d : Z) : float :=
  if n =? 0 then 0%float
  else
    let scaled e := if 0 <=? e then (n, d * 2 ^ e) else (n * 2 ^ (- e), d) in
    let e0 := Z.log2 n - Z.log2 d - 53 in
    let e1 := if 2 ^ 53 <=? fst (scaled e0) / snd (scaled e0) then e0 + 1 else e0 in
    let e := Z.max e1 (-1074) in
    let q := fst (scaled e) / snd (scaled e) in
    let r := fst (scaled e) mod snd (scaled e) in
    let q' :=
      if 2 * r <? snd (scaled e) then q
      else if snd (scaled e) <? 2 * r then q + 1
      else if Z.even q then q else q + 1 in
    Z.ldexp (Flt.of_int q') e.

Definition digit_of (a : ascii) : option Z :=
  let n := N_of_ascii a in
  if (48 <=? n)%N && (n <=? 57)%N then Some (Z.of_N n - 48) else None.

(** The digits of [s] read as a decimal number after [acc], with the number
    of them; [None] when a character is not a digit. *)
Fixpoint read_digits (acc : Z) (count : nat) (s : string) : option (Z * nat) :=
  match s with
  | EmptyString => Some (acc, count)
  | String a s' =>
      match digit_of a with
      | Some k => read_digits (10 * acc + k) (S count) s'
      | None => None
      end
  end.

Definition split_sign (s : string) : bool * string :=
  match s with
  | String "-" s' => (true, s')
  | String "+" s' => (false, s')
  | _ => (false, s)
  end.

(** The text before the first point, and the text after it if there is one. *)
Fixpoint split_point (s : string) : string * option string :=
  match s with
  | EmptyString => (EmptyString, None)
  | String "." s' => (EmptyString, Some s')
  | String a s' => let (i, f) := split_point s' in (String a i, f)
  end.

(** [float(s)] on plain decimals, an optional sign, digits and an optional
    fraction, within optional white space, and on texts that are not
    numbers.  (Exponents, underscores, [inf] and [nan], which [float] also
    reads, are outside the fragment and reported as not numbers.) *)
Definition py_float (s : string) : outcome float :=
  let (negative, body) := split_sign (Str.strip s) in
  let (int_part, frac_part) := split_point body in
  let frac_part := match frac_part with Some f => f | None => EmptyString end in
  match read_digits 0 0 int_part with
  | Some (i, ni) =>
      match read_digits i 0 frac_part with
      | Some (n, nf) =>
          if (ni + nf =? 0)%nat
          then Raise (Exn ValueError ("could not convert string to float: '" +:+ s +:+ "'"))
          else
            let x := nearest_quotient n (10 ^ Z.of_nat nf) in
            Return (if negative then PrimFloat.opp x else x)
      | None => Raise (Exn ValueError ("could not convert string to float: '" +:+ s +:+ "'"))
      end
  | None => Raise (Exn ValueError ("could not convert string to float: '" +:+ s +:+ "'"))
  end.

End Runtime.

(** ** Closed inputs: documents, services and responses *)

Module Sample.

(** A page with embedded text; recognition is not available for it. *)
Definition text_page (t : string) : Page :=
  {| extract_text := Return (Some t);
     image_to_string := Raise (Exn (OtherError "TesseractNotFoundError") "tesseract is not installed") |}.

(** An image-only page that recognition reads as [t]. *)
Definition scanned_page (t : string) : Page :=
  {| extract_text := Return None; image_to_string := Return t |}.

(** An image-only page on which recognition fails. *)
Definition unreadable_page : Page :=
  {| extract_text := Return None;
     image_to_string := Raise (Exn (OtherError "TesseractError") "image too small") |}.

(** A document that opens with [pages], and a service that answers every
    prompt with [answer]. *)
Definition world (pages : list Page) (answer : outcome (option string)) : Collaborators :=
  {| pdfplumber_open := fun _ => Return pages;
     chat_completions_create := fun _ _ => answer |}.

(** No document at the path. *)
Definition no_document : Collaborators :=
  {| pdfplumber_open := fun _ => Raise (Exn (OtherError "FileNotFoundError") "No such file");
     chat_completions_create := fun _ _ => Return (Some "{}") |}.

Definition with_key : CreditCardParser := {| groq_api_key := Some "gsk_live" |}.
Definition without_key : CreditCardParser := {| groq_api_key := None |}.

Definition quoted (s : string) : string := Str.dquote +:+ s +:+ Str.dquote.

(** The text of a JSON object with string members. *)
Definition object_text (members : list (string * string)) : string :=
  "{" +:+ Str.join "," (map (fun m => quoted (fst m) +:+ ":" +:+ quoted (snd m)) members) +:+ "}".

Definition hsbc_page : string :=
  "HSBC Premier credit card statement, account ending 1234".

Definition both_page : string :=
  "hsbc rewards: pay with chase or citi at any partner store".

(** The members of the object in the second scenario of the design
    document, and the response around it. *)
Definition members2 : list (string * string) :=
  [("issuer", "Not found"); ("card_last4", "1234"); ("statement_date", "2024-01-01");
   ("due_date", "2024-01-25"); ("total_balance", "$500"); ("minimum_payment", "$25")].

Definition response2 : string :=
  "Sure, here is the JSON:" +:+ Str.newline +:+ object_text members2 +:+ Str.newline
  +:+ "Let me know if you need more.".

(** What the second scenario returns. *)
Definition result2 : dict :=
  <["success" := PBool true]>
    (<["data" :=
         PDict (<["issuer" := PStr "HSBC"]>
                  (<["card_last4" := PStr "1234"]>
                     (<["statement_date" := PStr "2024-01-01"]>
                        (<["due_date" := PStr "2024-01-25"]>
                           (<["total_balance" := PStr "500"]>
                              (<["minimum_payment" := PStr "25"]> ∅))))))]>
       (<["extracted_fields" := PInt 5]>
          (<["total_fields" := PInt 5]>
             (<["success_rate" := PFloat 100]>
                (<["method" := PStr "AI-Powered (Groq Llama-3.1)"]> ∅))))).

(** An object all of whose members are strings other than the sentinel, the
    card number being the empty string. *)
Definition members_blank : list (string * string) :=
  [("issuer", "HSBC"); ("card_last4", ""); ("statement_date", "2024-01-01");
   ("due_date", "2024-01-25"); ("total_balance", "$500"); ("minimum_payment", "$25")].

(** The fields returned for it. *)
Definition data_blank : dict :=
  <["issuer" := PStr "HSBC"]>
    (<["card_last4" := PStr ""]>
       (<["statement_date" := PStr "2024-01-01"]>
          (<["due_date" := PStr "2024-01-25"]>
             (<["total_balance" := PStr "500"]>
                (<["minimum_payment" := PStr "25"]> ∅))))).



(** The fields of the first scenario as the model returns them. *)
Definition fields1 : dict :=
  <["total_balance" := PStr "$1,234.56"]> (<["minimum_payment" := PStr "$50.00"]> ∅).

End Sample.

(** ** The words of the design document

    Second definitions, written from the document and not from the code, to
    compare the code with; where the code departs from the document, the
    definition of the amended rule is given next to the words it amends. *)

Module Spec.

(** "An ordered sequence of (issuer name, keyword set) pairs evaluated in
    fixed order, first match wins": HSBC; Chase; American Express, matched
    also via "amex"; Citi; Discover; Capital One. *)
Definition issuer_rules : list (string * list string) :=
  [ ("HSBC", ["hsbc"]);
    ("Chase", ["chase"]);
    ("American Express", ["amex"; "american express"]);
    ("Citi", ["citi"]);
    ("Discover", ["discover"]);
    ("Capital One", ["capital one"]) ].

Definition first_match (txt : string) : string :=
  match List.find (fun rule => existsb (Str.contains txt) (snd rule)) issuer_rules with
  | Some rule => fst rule
  | None => "Unknown"
  end.

(** "The model's issuer value is absent or the sentinel", absent being what
    [data.get('issuer')] tests: no value, or an empty one (the empty string,
    [None], zero, an empty container). *)
Definition issuer_absent_or_sentinel (data : dict) : Prop :=
  data !! "issuer" = None
  \/ exists v, data !! "issuer" = Some v /\ (truthy v = false \/ v = PStr sentinel).

(** "Whose value is present and not the sentinel", "non-sentinel", word for
    word: the field is bound, and to a value other than the sentinel. *)
Definition non_sentinel (data : dict) (f : string) : Prop :=
  exists v, data !! f = Some v /\ v <> PStr sentinel.

(** The amended rule: the field is bound to a value that is not empty (the
    empty string, [None], zero and the empty containers are empty) and is
    not the sentinel.  It is narrower than [non_sentinel] by the empty
    values. *)
Definition extracted (data : dict) (f : string) : Prop :=
  exists v, data !! f = Some v /\ truthy v = true /\ v <> PStr sentinel.

#[global] Instance extracted_dec (data : dict) (f : string) : Decision (extracted data f).
Proof.
  unfold extracted.
  destruct (data !! f) as [v|]; [|right; intros (v & H & _); discriminate].
  destruct (truthy v) eqn:T; [|right; intros (v' & [= <-] & H & _); congruence].
  destruct v as [| | | |s| |];
    try (left; eexists; repeat split; [exact T | discriminate]).
  destruct (String.eqb_spec s sentinel) as [->|Hne].
  - right. intros (v' & [= <-] & _ & H). now apply H.
  - left. eexists. repeat split; [exact T | congruence].
Defined.

(** "Required-field set is fixed at five fields, excluding issuer." *)
Definition required_fields : list string :=
  ["card_last4"; "statement_date"; "due_date"; "total_balance"; "minimum_payment"].

(** "extracted_count = count of these", counted by the amended rule: how
    many of the five are bound to a value that is neither empty nor the
    sentinel. *)
Definition extracted_count (data : dict) : Z :=
  Z.of_nat (length (filter (extracted data) required_fields)).


(** A page to be read by optical recognition: embedded extraction gives no
    text, or fewer than 40 characters once the white space around them is
    stripped. *)
Definition illegible (page : Page) : Prop :=
  extract_text page = Return None
  \/ exists t, extract_text page = Return (Some t) /\ Str.py_len (Str.strip t) < 40.

(** The text a page resolves to: the embedded text of a legible page, what
    recognition reads on an illegible one, and the empty string when
    recognition fails. *)
Definition resolved_text (page : Page) (text : string) : Prop :=
  (illegible page /\
   match image_to_string page with
   | Return t => text = t
   | Raise _ => text = ""
   end)
  \/ (~ illegible page /\ extract_text page = Return (Some text)).

End Spec.

(** ** The calls of a run *)

Definition is_chat (ev : event) : bool :=
  match ev with
  | ChatCompletion _ => true
  | _ => false
  end.

(** The kinds of insight in the order of the rules, each with its
    priority. *)
Definition insight_kinds : list (string * string) :=
  [("warning", "high"); ("critical", "critical"); ("info", "medium")].

(** [n] copies of [s], for long sample texts. *)
Fixpoint copies (n : nat) (s : string) : string :=
  match n with
  | O => EmptyString
  | S k => s +:+ copies k s
  end.

(** ** The rest of [backend/app.py] *)

Module App.

(** [s.rsplit(c, 1)] for a one-character [c]: the text cut at its last
    occurrence, or the text alone. *)
Definition rsplit_1 (s : string) (c : ascii) : list string :=
  let i := Str.rfind s c in
  if i <? 0 then [s]
  else [Str.slice s 0 i; Str.slice s (i + 1) (Z.of_nat (String.length s))].

(** [l[i]] *)
Definition index (l : list string) (i : nat) : outcome string :=
  match l !! i with
  | Some x => Return x
  | None => Raise (Exn (OtherError "IndexError") "list index out of range")
  end.

Definition ALLOWED_EXTENSIONS : gset string := {[ "pdf" ]}.

Definition allowed_file (filename : string) : outcome bool :=
  if Str.contains filename "."
  then match index (rsplit_1 filename ".") 1 with
       | Return ext => Return (bool_decide (Str.lower ext ∈ ALLOWED_EXTENSIONS))
       | Raise e => Raise e
       end
  else Return false.

(** The list [supported_issuers] answers with. *)
Definition supported_issuers : list string :=
  ["HSBC"; "Chase"; "American Express"; "Citi"; "Discover"; "Capital One";
   "Any Bank (AI-Powered)"].

(** The history file [parse_history.json], by what [json.load] reads from
    it: [None] while the file does not exist, an exception when its text is
    not JSON.  What [json.dump] wrote is what [json.load] reads back. *)
Abbreviation history_file := (option (outcome pyval)).

Definition load_history : M history_file pyval :=
  fun file =>
    match file with
    | Some content => (file, content)
    | None => (file, Return (PList []))
    end.

(** [history.insert(0, entry)]: a method of lists. *)
Definition insert_first (history entry : pyval) : outcome (list pyval) :=
  match history with
  | PList l => Return (entry :: l)
  | v => Raise (Exn AttributeError
                  ("'" +:+ type_name v +:+ "' object has no attribute 'insert'"))
  end.

Definition save_history (entry : pyval) : M history_file unit :=
  history <- load_history ;;
  history <- lift (insert_first history entry) ;;
  let history := firstn 20 history in
  modify (fun _ => Some (Return (PList history))).

(** An uploaded file: its name, and what [file.save(path)] does. *)
Record FileStorage : Type := {
  filename : string;
  save : string -> outcome unit
}.

(** A request whose form Flask has read: [request.files].  Flask reads the
    form when the route first asks for [request.files]; for a body above
    [MAX_CONTENT_LENGTH] (16 MB) that read raises [RequestEntityTooLarge]
    before any line of the route's own [try], and the client is answered
    413.  A [Request] is a request within the limit. *)
Record Request : Type := { files : gmap string FileStorage }.

(** What the service works on: the calls made to the collaborators of the
    parser, the history file, and the paths that exist on disk. *)
Record Server : Type := {
  calls : list event;
  history : history_file;
  disk : gset string
}.

Definition on_calls {A} (m : M (list event) A) : M Server A :=
  fun st =>
    let (l, o) := m (calls st) in
    ({| calls := l; history := history st; disk := disk st |}, o).

Definition on_history {A} (m : M history_file A) : M Server A :=
  fun st =>
    let (h, o) := m (history st) in
    ({| calls := calls st; history := h; disk := disk st |}, o).

(** [file.save(filepath)] *)
Definition file_save (file : FileStorage) (filepath : string) : M Server unit :=
  fun st =>
    match save file filepath with
    | Return _ =>
        ({| calls := calls st; history := history st; disk := {[filepath]} ∪ disk st |},
         Return tt)
    | Raise e => (st, Raise e)
    end.

(** [os.remove(filepath)] *)
Definition os_remove (filepath : string) : M Server unit :=
  fun st =>
    if bool_decide (filepath ∈ disk st)
    then ({| calls := calls st; history := history st; disk := disk st ∖ {[filepath]} |},
          Return tt)
    else (st, Raise (Exn (OtherError "FileNotFoundError")
                       ("[Errno 2] No such file or directory: '" +:+ filepath +:+ "'"))).

Definition UPLOAD_FOLDER : string := "uploads".

(** [os.path.join(a, b)] on POSIX paths. *)
Definition path_join (a b : string) : string :=
  if String.prefix "/" b then b
  else if String.eqb a "" || String.prefix "/" (Str.rev a) then a +:+ b
  else a +:+ "/" +:+ b.

(** [d[key]] *)
Definition getitem (d : dict) (key : string) : outcome pyval :=
  match d !! key with
  | Some v => Return v
  | None => Raise (Exn (OtherError "KeyError") ("'" +:+ key +:+ "'"))
  end.

(** An insight as the dictionary the code builds. *)
Definition insight_value (i : Insight) : pyval :=
  PDict (<["type" := PStr (type i)]>
           (<["title" := PStr (title i)]>
              (<["message" := PStr (message i)]>
                 (<["priority" := PStr (priority i)]> ∅)))).

Section Routes.
Variable json_loads : string -> outcome pyval.
Variable py_repr : pyval -> string.
Variable py_float : string -> outcome float.
Variable env : Collaborators.
(** [werkzeug.utils.secure_filename] *)
Variable secure_filename : string -> string.
(** [os.getenv('GROQ_API_KEY')] *)
Variable getenv_key : option string.
(** [datetime.now().isoformat()] and
    [datetime.now().strftime('%Y-%m-%d %H:%M:%S')] when the entry is made *)
Variable now_isoformat now_strftime : string.

(** [generate_insights(data)] on any value.  On a value that is not a
    dictionary the tests of membership are false or raise [TypeError], and
    so does the indexing: the handlers catch it and the list stays empty. *)
Definition generate_insights_of (data : pyval) : outcome (list Insight) :=
  match data with
  | PDict d => generate_insights py_repr py_float d
  | _ => Return []
  end.

(** The route [POST /api/parse]: the response and its status. *)
Definition parse_statement (request : Request) : M Server (dict * Z) :=
  match files request !! "file" with
  | None => ret (failure "No file provided", 400)
  | Some file =>
      if String.eqb (filename file) ""
      then ret (failure "No file selected", 400)
      else
        allowed <- lift (allowed_file (filename file)) ;;
        if negb allowed
        then ret (failure "Only PDF files are allowed", 400)
        else
          try_except
            (let filename := secure_filename (filename file) in
             let filepath := path_join UPLOAD_FOLDER filename in
             file_save file filepath ;;;
             (* Parse with AI *)
             let parser := {| groq_api_key := getenv_key |} in
             result <- on_calls (parse json_loads py_repr env parser filepath) ;;
             success <- lift (getitem result "success") ;;
             result <- (if truthy success
                        then
                          (* Add AI insights *)
                          data <- lift (getitem result "data") ;;
                          insights <- lift (generate_insights_of data) ;;
                          let result :=
                            <["insights" := PList (map insight_value insights)]> result in
                          (* Save to history *)
                          let history_entry :=
                            <["id" := PStr now_isoformat]>
                              (<["filename" := PStr filename]>
                                 (<["timestamp" := PStr now_strftime]>
                                    (<["result" := PDict result]> ∅))) in
                          on_history (save_history (PDict history_entry)) ;;;
                          ret result
                        else ret result) ;;
             (* Clean up uploaded file *)
             os_remove filepath ;;;
             ret (result, 200))
            is_Exception
            (fun e => ret (failure (exn_str e), 500))
  end.

End Routes.

(** A request the route refuses before it touches anything: no part named
    [file], a part without a file name, or a file name that
    [allowed_file] does not allow. *)
Definition refused (request : Request) : Prop :=
  files request !! "file" = None
  \/ exists file,
       files request !! "file" = Some file
       /\ (filename file = "" \/ allowed_file (filename file) = Return false).

(** For the proofs: a computation that, when it returns a response, returns
    it with the given status. *)
Definition answers_with {St : Type} (status : Z) (m : M St (dict * Z)) : Prop :=
  forall s s' response k, m s = (s', Return (response, k)) -> k = status.

(** A request that uploads [name], saved without error, and the states of
    the service before it. *)
Definition upload (name : string) : Request :=
  {| files := {[ "file" := {| filename := name; save := fun _ => Return tt |} ]} |}.

Definition fresh : Server := {| calls := []; history := None; disk := ∅ |}.

Definition corrupt : Server :=
  {| calls := []; history := Some (Return (PDict ∅)); disk := ∅ |}.

End App.

(** * Properties *)

(** ** The runtime functions at work *)

Example contains_ex : Str.contains "Chase Bank" "ase" = true /\ Str.contains "abc" "bd" = false.
Proof. split; reflexivity. Qed.

Example find_ex : Str.find "a{b{c}d}e" "{" = 1 /\ Str.rfind "a{b{c}d}e" "}" = 7 /\ Str.find "abc" "{" = -1.
Proof. repeat split; reflexivity. Qed.

Example slice_ex : Str.slice "a{b{c}d}e" 1 8 = "{b{c}d}" /\ Str.slice "abc" 2 1 = "".
Proof. split; reflexivity. Qed.

Example delete_ex : Str.delete_all "," (Str.delete_all "$" "$1,234.56") = "1234.56".
Proof. reflexivity. Qed.

Example delete_sign_ex : Str.delete_all "₹" "₹ 1,200 ₹" = " 1,200 " /\ String.length "₹" = 3%nat.
Proof. split; reflexivity. Qed.

Example strip_ex : Str.strip (Str.of_bytes [32; 9; 194; 160; 120; 32; 121; 10; 226; 128; 131]%N) = "x y".
Proof. reflexivity. Qed.

Example lower_ex : Str.lower "HSBC Bank, CITI" = "hsbc bank, citi".
Proof. reflexivity. Qed.

Example round1_ex : Flt.round1 0.25 = 0.2%float /\ Flt.round1 60 = 60%float /\ Flt.round1 0.35 = 0.3%float.
Proof. repeat split; reflexivity. Qed.

Example to_int_ex : Flt.to_int 24.6912 = Return 24 /\ Flt.to_int (-2.5) = Return (-2).
Proof. split; reflexivity. Qed.

Example format_2f_ex :
  Flt.format_2f 1234567.125 = "1,234,567.12" /\ Flt.format_2f 0.125 = "0.12"
  /\ Flt.format_2f 2.675 = "2.67" /\ Flt.format_2f (-0.001) = "-0.00"
  /\ Flt.format_2f 457.24151807999993 = "457.24" /\ Flt.format_2f 999.999 = "1,000.00".
Proof. repeat split; reflexivity. Qed.

Example json_loads_ex :
  Runtime.json_loads (Sample.object_text [("a", "x"); ("b", "y z"); ("a", "w")])
  = Return (PDict (<["a" := PStr "w"]> (<["b" := PStr "y z"]> ∅)))
  /\ Runtime.json_loads "" = Raise (Exn JSONDecodeError "Expecting value: line 1 column 1 (char 0)")
  /\ Runtime.json_loads "{a, b}: {}"
     = Raise (Exn JSONDecodeError
                "Expecting property name enclosed in double quotes: line 1 column 2 (char 1)").
Proof. repeat split; vm_compute; reflexivity. Qed.

Example py_float_ex :
  Runtime.py_float "1234.56" = Return 1234.56%float
  /\ Runtime.py_float " 50.00 " = Return 50%float
  /\ Runtime.py_float "12a" = Raise (Exn ValueError "could not convert string to float: '12a'").
Proof. repeat split; vm_compute; reflexivity. Qed.

(** The second scenario: the object is found inside the prose, the issuer is
    repaired from the text of the document, the amounts are cleaned, and all
    five required fields count. *)
Example scenario_2 :
  parse Runtime.json_loads Runtime.py_repr
    (Sample.world [Sample.text_page Sample.hsbc_page] (Return (Some Sample.response2)))
    Sample.with_key "statement.pdf" []
  = ([OpenPdf "statement.pdf"; ExtractText 1;
      ChatCompletion (build_prompt Sample.hsbc_page)],
     Return Sample.result2).
Proof. vm_compute. reflexivity. Qed.

(** ** Searching and slicing *)

Lemma app_empty (t : string) : EmptyString +:+ t = t.
Proof. reflexivity. Qed.

Lemma app_cons (a : ascii) (s t : string) : String a s +:+ t = String a (s +:+ t).
Proof. reflexivity. Qed.

Lemma prefix_empty (s : string) : String.prefix EmptyString s = true.
Proof. destruct s; reflexivity. Qed.

Section Search.
Variable c : ascii.

Lemma contains_cons (a : ascii) (s : string) :
  Str.contains (String a s) (String c EmptyString) = Ascii.eqb a c || Str.contains s (String c EmptyString).
Proof.
  cbn [Str.contains String.prefix].
  destruct (ascii_dec c a) as [->|Hne].
  - rewrite Ascii.eqb_refl, prefix_empty. reflexivity.
  - destruct (Ascii.eqb_spec a c) as [->|_]; [contradiction | reflexivity].
Qed.

Lemma contains_nil : Str.contains EmptyString (String c EmptyString) = false.
Proof. reflexivity. Qed.

Lemma contains_app (s t : string) :
  Str.contains (s +:+ t) (String c EmptyString) = Str.contains s (String c EmptyString) || Str.contains t (String c EmptyString).
Proof.
  induction s as [|a s IH]; [reflexivity|].
  rewrite app_cons, !contains_cons, IH. now rewrite orb_assoc.
Qed.

Lemma find_absent (s : string) : Str.contains s (String c EmptyString) = false -> Str.find s c = -1.
Proof.
  induction s as [|a s IH]; [reflexivity|].
  rewrite contains_cons. intros [Ha Hs]%orb_false_elim.
  cbn [Str.find]. rewrite Ha, (IH Hs). reflexivity.
Qed.

Lemma rfind_absent (s : string) : Str.contains s (String c EmptyString) = false -> Str.rfind s c = -1.
Proof.
  induction s as [|a s IH]; [reflexivity|].
  rewrite contains_cons. intros [Ha Hs]%orb_false_elim.
  cbn [Str.rfind]. rewrite (IH Hs), Ha. reflexivity.
Qed.

(** The first occurrence is where the text free of [c] ends. *)
Lemma find_first (s t : string) :
  Str.contains s (String c EmptyString) = false ->
  Str.find (s +:+ String c t) c = Z.of_nat (String.length s).
Proof.
  induction s as [|a s IH]; intros H.
  - rewrite app_empty. cbn [Str.find String.length]. rewrite Ascii.eqb_refl. reflexivity.
  - rewrite contains_cons in H. apply orb_false_elim in H as [Ha Hs].
    rewrite app_cons. cbn [Str.find String.length]. rewrite Ha, (IH Hs).
    destruct (Z.ltb_spec (Z.of_nat (String.length s)) 0); lia.
Qed.

(** The last occurrence is where the text free of [c] starts. *)
Lemma rfind_last (s t : string) :
  Str.contains t (String c EmptyString) = false ->
  Str.rfind (s +:+ String c t) c = Z.of_nat (String.length s).
Proof.
  intros H. induction s as [|a s IH].
  - rewrite app_empty. cbn [Str.rfind]. rewrite (rfind_absent _ H), Ascii.eqb_refl. reflexivity.
  - rewrite app_cons. cbn [Str.rfind String.length]. rewrite IH.
    destruct (Z.leb_spec 0 (Z.of_nat (String.length s))); lia.
Qed.

End Search.

Lemma length_app (s t : string) :
  String.length (s +:+ t) = (String.length s + String.length t)%nat.
Proof.
  induction s as [|a s IH]; [reflexivity|].
  rewrite app_cons. cbn [String.length]. now rewrite IH.
Qed.

Lemma substring_prefix (s t : string) : substring 0 (String.length s) (s +:+ t) = s.
Proof.
  induction s as [|a s IH].
  - rewrite app_empty. destruct t; reflexivity.
  - rewrite app_cons. cbn [String.length substring]. now rewrite IH.
Qed.

Lemma substring_skip (s t : string) (n : nat) :
  substring (String.length s) n (s +:+ t) = substring 0 n t.
Proof.
  induction s as [|a s IH]; [reflexivity|].
  rewrite app_cons. cbn [String.length substring]. exact IH.
Qed.

(** A slice between the two ends of the middle part gives the middle part. *)
Lemma slice_middle (s m t : string) :
  Str.slice (s +:+ m +:+ t) (Z.of_nat (String.length s))
    (Z.of_nat (String.length s) + Z.of_nat (String.length m)) = m.
Proof.
  unfold Str.slice, Str.slice_bound. rewrite !length_app.
  destruct (Z.ltb_spec (Z.of_nat (String.length s)) 0); [lia|].
  destruct (Z.ltb_spec (Z.of_nat (String.length s) + Z.of_nat (String.length m)) 0); [lia|].
  rewrite !Z.min_l by lia.
  replace (Z.to_nat (Z.of_nat (String.length s) + Z.of_nat (String.length m)
                     - Z.of_nat (String.length s))) with (String.length m) by lia.
  rewrite Nat2Z.id, substring_skip. apply substring_prefix.
Qed.

Lemma app_assoc_str (s t u : string) : (s +:+ t) +:+ u = s +:+ (t +:+ u).
Proof.
  induction s as [|a s IH]; [reflexivity|].
  rewrite !app_cons. now rewrite IH.
Qed.

(** The slice [parse] decodes, when no opening brace comes before the object
    and no closing brace after it. *)
Lemma slice_of_braces (pre mid suf : string) :
  Str.contains pre "{" = false ->
  Str.contains suf "}" = false ->
  let response_text := pre +:+ ("{" +:+ mid +:+ "}") +:+ suf in
  Str.contains response_text "{" && Str.contains response_text "}" = true
  /\ Str.slice response_text (Str.find response_text "{") (Str.rfind response_text "}" + 1)
     = "{" +:+ mid +:+ "}".
Proof.
  intros Hpre Hsuf response_text.
  assert (E1 : response_text = pre +:+ String "{" (mid +:+ "}" +:+ suf)).
  { unfold response_text. rewrite !app_assoc_str. reflexivity. }
  assert (E2 : response_text = (pre +:+ "{" +:+ mid) +:+ String "}" suf).
  { unfold response_text. rewrite !app_assoc_str. reflexivity. }
  split.
  - rewrite E1 at 1. rewrite E2.
    rewrite !contains_app, !contains_cons, !Ascii.eqb_refl.
    now rewrite !orb_true_r.
  - rewrite E1 at 2. rewrite (find_first _ _ _ Hpre).
    rewrite E2 at 2. rewrite (rfind_last _ (pre +:+ "{" +:+ mid) _ Hsuf).
    replace (Z.of_nat (String.length (pre +:+ "{" +:+ mid)) + 1)
      with (Z.of_nat (String.length pre) + Z.of_nat (String.length ("{" +:+ mid +:+ "}"))).
    + apply slice_middle.
    + rewrite !length_app. cbn [String.length]. lia.
Qed.

(** ** The paths through [parse] *)

Section Paths.
Variable json_loads : string -> outcome pyval.
Variable py_repr : pyval -> string.
Variable env : Collaborators.
Variable self : CreditCardParser.
Variable pdf_path : string.

Lemma parse_read_failure (log log0 : list event) (e : exn) :
  extract_text_from_pdf env pdf_path log = (log0, Raise e) ->
  parse json_loads py_repr env self pdf_path log = (log0, Return (failure (exn_str e))).
Proof. intros H. unfold parse, try_except, bind. rewrite H. reflexivity. Qed.

Lemma parse_no_text (log log0 : list event) (pdf_text : string) :
  extract_text_from_pdf env pdf_path log = (log0, Return pdf_text) ->
  String.eqb (Str.strip pdf_text) "" = true ->
  parse json_loads py_repr env self pdf_path log
  = (log0, Return (failure "Could not extract text from PDF")).
Proof. intros H E. unfold parse, try_except, bind. rewrite H, E. reflexivity. Qed.

Lemma parse_query_failure (log log0 log1 : list event) (pdf_text : string) (e : exn) :
  extract_text_from_pdf env pdf_path log = (log0, Return pdf_text) ->
  String.eqb (Str.strip pdf_text) "" = false ->
  query_groq env self (build_prompt pdf_text) log0 = (log1, Raise e) ->
  parse json_loads py_repr env self pdf_path log = (log1, Return (failure (exn_str e))).
Proof. intros H E Q. unfold parse, try_except, bind. rewrite H, E, Q. reflexivity. Qed.

Lemma parse_responded (log log0 log1 : list event) (pdf_text response_text : string) :
  extract_text_from_pdf env pdf_path log = (log0, Return pdf_text) ->
  String.eqb (Str.strip pdf_text) "" = false ->
  query_groq env self (build_prompt pdf_text) log0 = (log1, Return response_text) ->
  parse json_loads py_repr env self pdf_path log
  = (log1, Return (interpreted json_loads py_repr pdf_text response_text)).
Proof.
  intros H E Q. unfold parse, try_except, bind. rewrite H, E, Q.
  unfold interpreted, analyze, bind, lift, ret.
  destruct (extract_json json_loads response_text) as [v|e].
  - destruct (as_dict v) as [d|e] eqn:Ed; [reflexivity|].
    destruct v; cbn in Ed; inversion Ed; reflexivity.
  - destruct (is_JSONDecodeError e); reflexivity.
Qed.

Lemma parse_path (log : list event) :
  exists log' r,
    parse json_loads py_repr env self pdf_path log = (log', Return r)
    /\ path json_loads py_repr env self pdf_path log log' r.
Proof.
  destruct (extract_text_from_pdf env pdf_path log) as [log0 [pdf_text|e]] eqn:H.
  - destruct (String.eqb (Str.strip pdf_text) "") eqn:E.
    + eexists _, _. split; [eapply parse_no_text; eassumption|]. eapply NoText; eassumption.
    + destruct (query_groq env self (build_prompt pdf_text) log0) as [log1 [r|e]] eqn:Q.
      * eexists _, _. split; [eapply parse_responded; eassumption|].
        eapply Responded; eassumption.
      * eexists _, _. split; [eapply parse_query_failure; eassumption|].
        eapply QueryFailure; eassumption.
  - eexists _, _. split; [eapply parse_read_failure; eassumption|]. eapply ReadFailure; eassumption.
Qed.

End Paths.

(** ** The keys of the results *)

Lemma failure_success (error : string) : failure error !! "success" = Some (PBool false).
Proof. unfold failure. now simplify_map_eq. Qed.

Lemma failure_error (error : string) : failure error !! "error" = Some (PStr error).
Proof. unfold failure. now simplify_map_eq. Qed.

Lemma decode_failure_success (e : exn) (response_text : string) :
  decode_failure e response_text !! "success" = Some (PBool false).
Proof. unfold decode_failure. now simplify_map_eq. Qed.

Lemma decode_failure_error (e : exn) (response_text : string) :
  decode_failure e response_text !! "error"
  = Some (PStr ("AI returned invalid JSON: " +:+ exn_str e)).
Proof. unfold decode_failure. now simplify_map_eq. Qed.

Lemma decode_failure_raw (e : exn) (response_text : string) :
  decode_failure e response_text !! "raw_response" = Some (PStr response_text).
Proof. unfold decode_failure. now simplify_map_eq. Qed.

Lemma success_result_success (data : dict) : success_result data !! "success" = Some (PBool true).
Proof. unfold success_result. now simplify_map_eq. Qed.

Lemma success_result_data (data : dict) : success_result data !! "data" = Some (PDict data).
Proof. unfold success_result. now simplify_map_eq. Qed.

Lemma success_result_extracted (data : dict) :
  success_result data !! "extracted_fields" = Some (PInt (count_extracted data)).
Proof. unfold success_result. now simplify_map_eq. Qed.

Lemma success_result_total (data : dict) : success_result data !! "total_fields" = Some (PInt 5).
Proof. unfold success_result. now simplify_map_eq. Qed.

Lemma success_result_rate (data : dict) :
  success_result data !! "success_rate"
  = Some (PFloat (Flt.round1 (success_rate_of (count_extracted data)))).
Proof. unfold success_result. now simplify_map_eq. Qed.

(** The result of a run that responded is one of three. *)
Lemma interpreted_cases (json_loads : string -> outcome pyval) (py_repr : pyval -> string)
    (pdf_text response_text : string) :
  let r := interpreted json_loads py_repr pdf_text response_text in
  (exists error, r = failure error)
  \/ (exists e, r = decode_failure e response_text)
  \/ (exists d, extract_json json_loads response_text = Return (PDict d)
                /\ r = success_result (cleanup_numeric py_repr (repair_issuer pdf_text d))).
Proof.
  unfold interpreted.
  destruct (extract_json json_loads response_text) as [v|e].
  - destruct v; cbn [as_dict]; eauto 6.
  - destruct (is_JSONDecodeError e); eauto.
Qed.

(** A successful result comes from the last path, with a decoded object. *)
Lemma parse_success_inv (json_loads : string -> outcome pyval) (py_repr : pyval -> string)
    (env : Collaborators) (self : CreditCardParser) (pdf_path : string)
    (log log' : list event) (r : dict) :
  parse json_loads py_repr env self pdf_path log = (log', Return r) ->
  r !! "success" = Some (PBool true) ->
  exists log0 pdf_text response_text d,
    extract_text_from_pdf env pdf_path log = (log0, Return pdf_text)
    /\ String.eqb (Str.strip pdf_text) "" = false
    /\ query_groq env self (build_prompt pdf_text) log0 = (log', Return response_text)
    /\ extract_json json_loads response_text = Return (PDict d)
    /\ r = success_result (cleanup_numeric py_repr (repair_issuer pdf_text d)).
Proof.
  intros Hp Hs.
  destruct (parse_path json_loads py_repr env self pdf_path log) as (l & r' & Hp' & Hpath).
  rewrite Hp in Hp'. injection Hp' as <- <-.
  destruct Hpath as [log0 e H|log0 t H E|log0 log1 t e H E Q|log0 log1 t resp H E Q];
    try (rewrite failure_success in Hs; discriminate).
  destruct (interpreted_cases json_loads py_repr t resp) as [[error Hr]|[[e Hr]|[d [Hd Hr]]]].
  - rewrite Hr, failure_success in Hs. discriminate.
  - rewrite Hr, decode_failure_success in Hs. discriminate.
  - exists log0, t, resp, d. auto.
Qed.

(** ** Fatal conditions *)

Lemma query_groq_missing_key (env : Collaborators) (self : CreditCardParser)
    (prompt : string) (log : list event) :
  key_missing self = true ->
  query_groq env self prompt log
  = (log, Raise (Exn Exception "GROQ_API_KEY not configured. Please add it to .env file.")).
Proof. intros H. unfold query_groq. rewrite H. reflexivity. Qed.

Lemma query_groq_service_failure (env : Collaborators) (self : CreditCardParser)
    (key prompt : string) (log : list event) (e : exn) :
  groq_api_key self = Some key ->
  String.eqb key "" = false ->
  chat_completions_create env key prompt = Raise e ->
  query_groq env self prompt log
  = (log ++ [ChatCompletion prompt], Raise (Exn Exception ("Groq API Error: " +:+ exn_str e))).
Proof.
  intros Hk Hne Hc. unfold query_groq, key_missing. rewrite Hk, Hne.
  unfold try_except, bind, call. cbn [or_empty]. rewrite Hc. reflexivity.
Qed.

Lemma extract_open_failure (env : Collaborators) (pdf_path : string) (log : list event) (e : exn) :
  pdfplumber_open env pdf_path = Raise e ->
  extract_text_from_pdf env pdf_path log
  = (log ++ [OpenPdf pdf_path], Raise (Exn Exception ("Error reading PDF: " +:+ exn_str e))).
Proof.
  intros H. unfold extract_text_from_pdf, try_except, bind, call. rewrite H. reflexivity.
Qed.

(** C10.  [parse] is total: whatever the document, the service and the
    decoder do, exceptions included, it returns a mapping; the mapping binds
    ['success'] to a Boolean, and ['error'] to a message whenever that
    Boolean is false. *)
Theorem parse_total (json_loads : string -> outcome pyval) (py_repr : pyval -> string)
    (env : Collaborators) (self : CreditCardParser) (pdf_path : string) (log : list event) :
  exists log' r,
    parse json_loads py_repr env self pdf_path log = (log', Return r)
    /\ (exists b, r !! "success" = Some (PBool b))
    /\ (r !! "success" = Some (PBool false) -> exists error, r !! "error" = Some (PStr error)).
Proof.
  destruct (parse_path json_loads py_repr env self pdf_path log) as (log' & r & Hp & Hpath).
  exists log', r. split; [exact Hp|].
  assert (Hf : forall error, (exists b, failure error !! "success" = Some (PBool b))
                             /\ (failure error !! "success" = Some (PBool false) ->
                                 exists msg, failure error !! "error" = Some (PStr msg))).
  { intros error. rewrite failure_success, failure_error. eauto. }
  destruct Hpath as [log0 e H|log0 t H E|log0 log1 t e H E Q|log0 log1 t resp H E Q];
    try apply Hf.
  destruct (interpreted_cases json_loads py_repr t resp) as [[error ->]|[[e ->]|[d [_ ->]]]].
  - apply Hf.
  - rewrite decode_failure_success, decode_failure_error. eauto.
  - rewrite success_result_success. split; [eauto|discriminate].
Qed.

(** C1, as the code has it.  Each fatal condition is raised by the component
    that meets it: [query_groq] raises the configuration error without a
    call to the service when the credential is missing, and wraps a failure
    of the service; [extract_text_from_pdf] wraps a failure to open the
    document.  [parse] catches whatever the two raise and returns it to its
    caller as [{'success': False, 'error': str(e)}]. *)
Theorem fatal_conditions_are_caught (json_loads : string -> outcome pyval)
    (py_repr : pyval -> string) (env : Collaborators) (self : CreditCardParser)
    (pdf_path : string) (log : list event) :
  (key_missing self = true ->
   forall prompt l,
     query_groq env self prompt l
     = (l, Raise (Exn Exception "GROQ_API_KEY not configured. Please add it to .env file.")))
  /\ (forall e,
        pdfplumber_open env pdf_path = Raise e ->
        extract_text_from_pdf env pdf_path log
        = (log ++ [OpenPdf pdf_path], Raise (Exn Exception ("Error reading PDF: " +:+ exn_str e))))
  /\ (forall key prompt l e,
        groq_api_key self = Some key -> String.eqb key "" = false ->
        chat_completions_create env key prompt = Raise e ->
        query_groq env self prompt l
        = (l ++ [ChatCompletion prompt], Raise (Exn Exception ("Groq API Error: " +:+ exn_str e))))
  /\ (forall log' e,
        extract_text_from_pdf env pdf_path log = (log', Raise e) ->
        parse json_loads py_repr env self pdf_path log = (log', Return (failure (exn_str e))))
  /\ (forall log0 log' pdf_text e,
        extract_text_from_pdf env pdf_path log = (log0, Return pdf_text) ->
        String.eqb (Str.strip pdf_text) "" = false ->
        query_groq env self (build_prompt pdf_text) log0 = (log', Raise e) ->
        parse json_loads py_repr env self pdf_path log = (log', Return (failure (exn_str e)))).
Proof.
  repeat split.
  - intros H prompt l. now apply query_groq_missing_key.
  - intros e H. now apply extract_open_failure.
  - intros key prompt l e Hk Hne Hc. eapply query_groq_service_failure; eassumption.
  - intros log' e H. now apply parse_read_failure.
  - intros log0 log' t e H E Q. eapply parse_query_failure; eassumption.
Qed.

(** C1, as stated, fails: with no credential configured, an invocation of
    [parse] on a legible document returns the configuration error as a
    value; nothing is raised to the caller. *)
Lemma missing_credential_is_returned :
  parse Runtime.json_loads Runtime.py_repr
    (Sample.world [Sample.text_page Sample.hsbc_page] (Return (Some Sample.response2)))
    Sample.without_key "statement.pdf" []
  = ([OpenPdf "statement.pdf"; ExtractText 1],
     Return (failure "GROQ_API_KEY not configured. Please add it to .env file.")).
Proof. vm_compute. reflexivity. Qed.

(** The theorem at a document that cannot be opened. *)
Lemma fatal_conditions_witness :
  pdfplumber_open Sample.no_document "missing.pdf"
  = Raise (Exn (OtherError "FileNotFoundError") "No such file")
  /\ parse Runtime.json_loads Runtime.py_repr Sample.no_document Sample.with_key "missing.pdf" []
     = ([OpenPdf "missing.pdf"], Return (failure "Error reading PDF: No such file")).
Proof.
  split; [reflexivity|].
  pose proof (fatal_conditions_are_caught Runtime.json_loads Runtime.py_repr Sample.no_document
                Sample.with_key "missing.pdf" []) as (_ & Hopen & _ & Hparse & _).
  apply (Hparse _ _ (Hopen _ eq_refl)).
Defined.

(** ** Response repair *)

(** C4, as the code has it.  When the prose before a well-formed JSON object
    holds no opening brace and the prose after it no closing brace, the
    text from the first opening brace to the last closing brace is the
    object's own text, and response repair recovers exactly that object. *)
Theorem extract_json_recovers (json_loads : string -> outcome pyval)
    (pre mid suf : string) (d : dict) :
  Str.contains pre "{" = false ->
  Str.contains suf "}" = false ->
  json_loads ("{" +:+ mid +:+ "}") = Return (PDict d) ->
  extract_json json_loads (pre +:+ ("{" +:+ mid +:+ "}") +:+ suf) = Return (PDict d).
Proof.
  intros Hpre Hsuf Hd.
  destruct (slice_of_braces pre mid suf Hpre Hsuf) as [Hboth Hslice].
  unfold extract_json. cbv zeta in Hboth, Hslice. rewrite Hboth, Hslice. exact Hd.
Qed.

(** C4, as stated, fails: prose with braces of its own hides the object.
    The response holds the well-formed object [{}] after a prefix, and the
    text from the first opening brace to the last closing brace does not
    decode. *)
Lemma braces_in_prose_defeat_repair :
  Runtime.json_loads "{}" = Return (PDict ∅)
  /\ extract_json Runtime.json_loads ("Fields {a, b}: " +:+ "{}" +:+ "")
     = Raise (Exn JSONDecodeError
                "Expecting property name enclosed in double quotes: line 1 column 2 (char 1)").
Proof. split; vm_compute; reflexivity. Qed.

(** The theorem at the response of the second scenario. *)
Lemma extract_json_recovers_witness :
  Str.contains ("Sure, here is the JSON:" +:+ Str.newline) "{" = false
  /\ Str.contains (Str.newline +:+ "Let me know if you need more.") "}" = false
  /\ extract_json Runtime.json_loads Sample.response2
     = Return (PDict (<["issuer" := PStr "Not found"]>
                        (<["card_last4" := PStr "1234"]>
                           (<["statement_date" := PStr "2024-01-01"]>
                              (<["due_date" := PStr "2024-01-25"]>
                                 (<["total_balance" := PStr "$500"]>
                                    (<["minimum_payment" := PStr "$25"]> ∅))))))).
Proof.
  split; [reflexivity|]. split; [reflexivity|].
  apply (extract_json_recovers Runtime.json_loads
           ("Sure, here is the JSON:" +:+ Str.newline)
           (Str.join "," (map (fun m => Sample.quoted (fst m) +:+ ":" +:+ Sample.quoted (snd m))
                            Sample.members2))
           (Str.newline +:+ "Let me know if you need more.")).
  - reflexivity.
  - reflexivity.
  - vm_compute. reflexivity.
Defined.

(** C5, as the code has it.  A response without an opening brace or without
    a closing brace fails with the "no JSON object" error; a response with
    both, whose text from the first opening brace to the last closing brace
    (empty when the last closing brace comes first) does not decode, fails
    with the decode error and keeps the raw response.  Either way [parse]
    returns a result with [success] false; it does not raise. *)
Theorem repair_failures_are_results (json_loads : string -> outcome pyval)
    (py_repr : pyval -> string) (env : Collaborators) (self : CreditCardParser)
    (pdf_path : string) (log log0 log1 : list event) (pdf_text response_text : string) :
  extract_text_from_pdf env pdf_path log = (log0, Return pdf_text) ->
  String.eqb (Str.strip pdf_text) "" = false ->
  query_groq env self (build_prompt pdf_text) log0 = (log1, Return response_text) ->
  (Str.contains response_text "{" && Str.contains response_text "}" = false ->
   parse json_loads py_repr env self pdf_path log
   = (log1, Return (<["success" := PBool false]>
                      (<["error" := PStr "No JSON object found in AI response"]> ∅))))
  /\ (forall e,
        Str.contains response_text "{" && Str.contains response_text "}" = true ->
        json_loads (Str.slice response_text (Str.find response_text "{")
                      (Str.rfind response_text "}" + 1)) = Raise e ->
        exn_cls e = JSONDecodeError ->
        parse json_loads py_repr env self pdf_path log
        = (log1, Return (<["success" := PBool false]>
                           (<["error" := PStr ("AI returned invalid JSON: " +:+ exn_str e)]>
                              (<["raw_response" := PStr response_text]> ∅))))).
Proof.
  intros H E Q.
  rewrite (parse_responded json_loads py_repr env self pdf_path _ _ _ _ _ H E Q).
  unfold interpreted, extract_json. split.
  - intros ->. reflexivity.
  - intros e -> -> Hc. unfold is_JSONDecodeError. rewrite Hc. reflexivity.
Qed.

(** C5, as stated, fails: the response [}{] has both braces and no matched
    pair; the text between the first opening and the last closing brace is
    empty, and the failure is the decode error, not "no JSON object". *)
Lemma unmatched_braces_decode_error :
  parse Runtime.json_loads Runtime.py_repr
    (Sample.world [Sample.text_page Sample.hsbc_page] (Return (Some "}{")))
    Sample.with_key "statement.pdf" []
  = ([OpenPdf "statement.pdf"; ExtractText 1; ChatCompletion (build_prompt Sample.hsbc_page)],
     Return (<["success" := PBool false]>
               (<["error" := PStr "AI returned invalid JSON: Expecting value: line 1 column 1 (char 0)"]>
                  (<["raw_response" := PStr "}{"]> ∅)))).
Proof. vm_compute. reflexivity. Qed.

(** The theorem at the third scenario, a response without braces, and at
    a response whose braces hold no JSON. *)
Lemma repair_failures_witness :
  parse Runtime.json_loads Runtime.py_repr
    (Sample.world [Sample.text_page Sample.hsbc_page] (Return (Some "I could not extract data.")))
    Sample.with_key "statement.pdf" []
  = ([OpenPdf "statement.pdf"; ExtractText 1; ChatCompletion (build_prompt Sample.hsbc_page)],
     Return (<["success" := PBool false]>
               (<["error" := PStr "No JSON object found in AI response"]> ∅)))
  /\ parse Runtime.json_loads Runtime.py_repr
       (Sample.world [Sample.text_page Sample.hsbc_page] (Return (Some "The fields: {oops}")))
       Sample.with_key "statement.pdf" []
     = ([OpenPdf "statement.pdf"; ExtractText 1; ChatCompletion (build_prompt Sample.hsbc_page)],
        Return (<["success" := PBool false]>
                  (<["error" :=
                       PStr ("AI returned invalid JSON: "
                             +:+ "Expecting property name enclosed in double quotes: "
                             +:+ "line 1 column 2 (char 1)")]>
                     (<["raw_response" := PStr "The fields: {oops}"]> ∅)))).
Proof.
  split.
  - refine (proj1 (repair_failures_are_results Runtime.json_loads Runtime.py_repr
                     (Sample.world [Sample.text_page Sample.hsbc_page]
                        (Return (Some "I could not extract data.")))
                     Sample.with_key "statement.pdf" []
                     [OpenPdf "statement.pdf"; ExtractText 1] _
                     Sample.hsbc_page "I could not extract data." _ _ _) _);
      vm_compute; reflexivity.
  - refine (proj2 (repair_failures_are_results Runtime.json_loads Runtime.py_repr
                     (Sample.world [Sample.text_page Sample.hsbc_page]
                        (Return (Some "The fields: {oops}")))
                     Sample.with_key "statement.pdf" []
                     [OpenPdf "statement.pdf"; ExtractText 1] _
                     Sample.hsbc_page "The fields: {oops}" _ _ _)
              (Exn JSONDecodeError
                 "Expecting property name enclosed in double quotes: line 1 column 2 (char 1)")
              _ _ _);
      vm_compute; reflexivity.
Defined.

(** ** Issuer repair *)

Lemma eq_str_spec (v : pyval) (s : string) : eq_str v s = true <-> v = PStr s.
Proof.
  destruct v; cbn; try (split; [discriminate | intros [=]]).
  rewrite String.eqb_eq. split; [now intros -> | now intros [= ->]].
Qed.

Lemma issuer_missing_spec (data : dict) :
  issuer_missing data = true <-> Spec.issuer_absent_or_sentinel data.
Proof.
  unfold issuer_missing, Spec.issuer_absent_or_sentinel.
  destruct (data !! "issuer") as [v|].
  - rewrite orb_true_iff, negb_true_iff, eq_str_spec. split.
    + intros H. right. exists v. auto.
    + intros [H|(v' & [= <-] & H)]; [discriminate | exact H].
  - split; auto.
Qed.

Lemma infer_issuer_first_match (txt : string) : infer_issuer txt = Spec.first_match txt.
Proof.
  unfold infer_issuer, Spec.first_match, Spec.issuer_rules.
  cbn [List.find existsb snd fst].
  repeat (match goal with
          | |- context [Str.contains txt ?k] => destruct (Str.contains txt k)
          end; cbn [orb]; try reflexivity).
Qed.

(** C6, as the code has it.  Issuer repair runs exactly when the model's
    issuer value is absent (missing or empty) or the sentinel; it
    lower-cases the whole acquired text and takes the first issuer, in the
    order HSBC, Chase, American Express (also by "amex"), Citi, Discover,
    Capital One, one of whose keywords the text contains, and "Unknown" when
    none does.  A text with "chase" in it resolves to Chase, with "citi" in
    it or not, provided "hsbc", which is tested first, is not in it. *)
Theorem issuer_repair_rule (pdf_text : string) (data : dict) :
  let txt := Str.lower pdf_text in
  (Spec.issuer_absent_or_sentinel data ->
   repair_issuer pdf_text data = <["issuer" := PStr (Spec.first_match txt)]> data)
  /\ (~ Spec.issuer_absent_or_sentinel data -> repair_issuer pdf_text data = data)
  /\ (Str.contains txt "chase" = true -> Str.contains txt "hsbc" = false ->
      Spec.first_match txt = "Chase").
Proof.
  intros txt. unfold repair_issuer. repeat split.
  - intros H%issuer_missing_spec. rewrite H. now rewrite infer_issuer_first_match.
  - intros H. destruct (issuer_missing data) eqn:E; [|reflexivity].
    apply issuer_missing_spec in E. contradiction.
  - intros Hc Hh. unfold Spec.first_match, Spec.issuer_rules.
    cbn [List.find existsb snd fst]. now rewrite Hh, Hc.
Qed.

(** C6, as stated, fails: a text with both "chase" and "citi" in it, and
    "hsbc" as well, resolves to HSBC. *)
Lemma chase_and_citi_resolve_to_hsbc :
  Str.contains Sample.both_page "chase" = true
  /\ Str.contains Sample.both_page "citi" = true
  /\ parse Runtime.json_loads Runtime.py_repr
       (Sample.world [Sample.text_page Sample.both_page] (Return (Some "{}")))
       Sample.with_key "statement.pdf" []
     = ([OpenPdf "statement.pdf"; ExtractText 1; ChatCompletion (build_prompt Sample.both_page)],
        Return (success_result (<["issuer" := PStr "HSBC"]> ∅))).
Proof. repeat split; vm_compute; reflexivity. Qed.

(** The theorem at a text with "Chase" and "Citi" in it and an object
    without an issuer. *)
Lemma issuer_repair_witness :
  Spec.issuer_absent_or_sentinel ∅
  /\ repair_issuer "Chase Sapphire, formerly a CITI card" ∅ = <["issuer" := PStr "Chase"]> ∅.
Proof.
  assert (H : Spec.issuer_absent_or_sentinel ∅) by (left; reflexivity).
  split; [exact H|].
  destruct (issuer_repair_rule "Chase Sapphire, formerly a CITI card" ∅) as (Hrun & _ & Hchase).
  rewrite (Hrun H), (Hchase eq_refl eq_refl). reflexivity.
Defined.

(** ** Completeness score *)

Lemma is_extracted_spec (data : dict) (f : string) :
  is_extracted data f = true <-> Spec.extracted data f.
Proof.
  unfold is_extracted, Spec.extracted. destruct (data !! f) as [v|].
  - rewrite andb_true_iff, negb_true_iff. split.
    + intros [T S]. exists v. repeat split; [exact T|].
      intros E%eq_str_spec. congruence.
    + intros (v' & [= <-] & T & S). split; [exact T|].
      destruct (eq_str v sentinel) eqn:E; [|reflexivity].
      apply eq_str_spec in E. contradiction.
  - split; [discriminate | intros (v & H & _); discriminate].
Qed.

Lemma count_filter (data : dict) (l : list string) :
  length (List.filter (is_extracted data) l) = length (filter (Spec.extracted data) l).
Proof.
  induction l as [|f l IH]; [reflexivity|].
  rewrite filter_cons. cbn [List.filter].
  destruct (is_extracted data f) eqn:E; destruct (decide (Spec.extracted data f)) as [S|S].
  - cbn [length]. now rewrite IH.
  - apply is_extracted_spec in E. contradiction.
  - apply is_extracted_spec in S. congruence.
  - exact IH.
Qed.

Lemma count_extracted_spec (data : dict) : count_extracted data = Spec.extracted_count data.
Proof. unfold count_extracted, Spec.extracted_count. now rewrite count_filter. Qed.

Lemma filter_all {A} (P : A -> Prop) `{forall x, Decision (P x)} (l : list A) :
  length (filter P l) = length l <-> Forall P l.
Proof.
  induction l as [|x l IH].
  - split; [constructor | reflexivity].
  - rewrite filter_cons, Forall_cons. destruct (decide (P x)) as [Hx|Hx]; cbn [length].
    + rewrite <- IH. split; [intros [= E]; auto | intros [_ E]; now rewrite E].
    + pose proof (length_filter P l). split; [lia | tauto].
Qed.

Lemma count_range (data : dict) : 0 <= Spec.extracted_count data <= 5.
Proof.
  unfold Spec.extracted_count.
  pose proof (length_filter (Spec.extracted data) Spec.required_fields) as H.
  cbn [length Spec.required_fields] in H. lia.
Qed.

(** The six rates there are. *)
Lemma rate_values (n : Z) :
  0 <= n <= 5 ->
  Flt.round1 (success_rate_of n) = Flt.of_int (20 * n)
  /\ PrimFloat.leb 0 (Flt.of_int (20 * n)) = true
  /\ PrimFloat.leb (Flt.of_int (20 * n)) 100 = true
  /\ (Flt.of_int (20 * n) = 100%float <-> n = 5).
Proof.
  intros H.
  assert (E : n = 0 \/ n = 1 \/ n = 2 \/ n = 3 \/ n = 4 \/ n = 5) by lia.
  destruct E as [->|[->|[->|[->|[->| ->]]]]];
    (split; [vm_compute; reflexivity|]);
    (split; [vm_compute; reflexivity|]);
    (split; [vm_compute; reflexivity|]);
    (split; [|try reflexivity; lia]);
    intros E; try reflexivity;
    apply (f_equal (fun x => PrimFloat.eqb x 100)) in E; vm_compute in E; discriminate.
Qed.

(** C3, as the code has it.  On a successful parse, the success rate is the
    number of the five required fields (the issuer is not one) that are
    bound to a value that is neither empty nor the sentinel, divided by
    five, times 100, rounded to one decimal; it lies between 0 and 100, and
    is 100 exactly when all five are bound to a value that is neither empty
    nor the sentinel. *)
Theorem success_rate_rule (json_loads : string -> outcome pyval) (py_repr : pyval -> string)
    (env : Collaborators) (self : CreditCardParser) (pdf_path : string)
    (log log' : list event) (r : dict) :
  parse json_loads py_repr env self pdf_path log = (log', Return r) ->
  r !! "success" = Some (PBool true) ->
  exists data rate,
    r !! "data" = Some (PDict data)
    /\ r !! "extracted_fields" = Some (PInt (Spec.extracted_count data))
    /\ r !! "total_fields" = Some (PInt 5)
    /\ r !! "success_rate" = Some (PFloat rate)
    /\ rate = Flt.round1 (Flt.of_int (Spec.extracted_count data) / Flt.of_int 5 * Flt.of_int 100)%float
    /\ PrimFloat.leb 0 rate = true
    /\ PrimFloat.leb rate 100 = true
    /\ (rate = 100%float <->
        Spec.extracted data "card_last4" /\ Spec.extracted data "statement_date"
        /\ Spec.extracted data "due_date" /\ Spec.extracted data "total_balance"
        /\ Spec.extracted data "minimum_payment").
Proof.
  intros Hp Hs.
  destruct (parse_success_inv _ _ _ _ _ _ _ _ Hp Hs) as (log0 & t & resp & d & _ & _ & _ & _ & ->).
  set (data := cleanup_numeric py_repr (repair_issuer t d)).
  destruct (rate_values _ (count_range data)) as (Hr & H0 & H100 & Hiff).
  exists data, (Flt.of_int (20 * Spec.extracted_count data)).
  rewrite success_result_data, success_result_extracted, success_result_total,
    success_result_rate, count_extracted_spec.
  split_and!; try assumption; try reflexivity.
  - now rewrite Hr.
  - now rewrite <- Hr.
  - unfold Spec.extracted_count in Hiff. rewrite Hiff. split.
    + intros E.
      assert (F : Forall (Spec.extracted data) Spec.required_fields).
      { apply (proj1 (filter_all _ _)). cbn [length Spec.required_fields]. lia. }
      unfold Spec.required_fields in F. rewrite !Forall_cons in F. tauto.
    + intros (H1 & H2 & H3 & H4 & H5).
      assert (F : Forall (Spec.extracted data) Spec.required_fields).
      { unfold Spec.required_fields. repeat constructor; assumption. }
      apply (proj2 (filter_all _ _)) in F. rewrite F. reflexivity.
Qed.

(** C3, as stated, fails: the model answers with the empty string for the
    card number.  All five required fields are present and none is the
    sentinel, yet four are counted and the rate is 80. *)
Lemma empty_field_is_not_counted :
  parse Runtime.json_loads Runtime.py_repr
    (Sample.world [Sample.text_page Sample.hsbc_page]
       (Return (Some (Sample.object_text Sample.members_blank))))
    Sample.with_key "statement.pdf" []
  = ([OpenPdf "statement.pdf"; ExtractText 1;
      ChatCompletion (build_prompt Sample.hsbc_page)],
     Return (success_result Sample.data_blank))
  /\ success_result Sample.data_blank !! "success" = Some (PBool true)
  /\ success_result Sample.data_blank !! "data" = Some (PDict Sample.data_blank)
  /\ Forall (Spec.non_sentinel Sample.data_blank) Spec.required_fields
  /\ success_result Sample.data_blank !! "extracted_fields" = Some (PInt 4)
  /\ success_result Sample.data_blank !! "success_rate" = Some (PFloat 80).
Proof.
  split_and!; try (vm_compute; reflexivity).
  repeat (constructor; [eexists; split; [reflexivity | discriminate]|]); constructor.
Qed.

(** The theorem at the second scenario. *)
Lemma success_rate_witness :
  Sample.result2 !! "success" = Some (PBool true)
  /\ exists data rate,
       Sample.result2 !! "data" = Some (PDict data)
       /\ Sample.result2 !! "extracted_fields" = Some (PInt (Spec.extracted_count data))
       /\ Sample.result2 !! "total_fields" = Some (PInt 5)
       /\ Sample.result2 !! "success_rate" = Some (PFloat rate)
       /\ rate = Flt.round1 (Flt.of_int (Spec.extracted_count data) / Flt.of_int 5
                              * Flt.of_int 100)%float
       /\ PrimFloat.leb 0 rate = true
       /\ PrimFloat.leb rate 100 = true
       /\ (rate = 100%float <->
           Spec.extracted data "card_last4" /\ Spec.extracted data "statement_date"
           /\ Spec.extracted data "due_date" /\ Spec.extracted data "total_balance"
           /\ Spec.extracted data "minimum_payment").
Proof.
  assert (H : Sample.result2 !! "success" = Some (PBool true)) by reflexivity.
  split; [exact H|].
  exact (success_rate_rule Runtime.json_loads Runtime.py_repr
           (Sample.world [Sample.text_page Sample.hsbc_page] (Return (Some Sample.response2)))
           Sample.with_key "statement.pdf" [] _ _ scenario_2 H).
Defined.

(** ** The keys of the extracted fields *)

Lemma repair_issuer_lookup (pdf_text : string) (data : dict) (k : string) :
  repair_issuer pdf_text data !! k
  = if decide (k = "issuer")
    then (if issuer_missing data
          then Some (PStr (infer_issuer (Str.lower pdf_text)))
          else data !! "issuer")
    else data !! k.
Proof.
  unfold repair_issuer. destruct (decide (k = "issuer")) as [->|Hne].
  - destruct (issuer_missing data); [apply lookup_insert_eq | reflexivity].
  - destruct (issuer_missing data); [now apply lookup_insert_ne | reflexivity].
Qed.

Section Cleanup.
Variable py_repr : pyval -> string.

Lemma cleanup_field_lookup (data : dict) (key k : string) :
  cleanup_field py_repr data key !! k
  = if decide (k = key) then cleaned py_repr <$> data !! key else data !! k.
Proof.
  unfold cleanup_field, cleaned. destruct (decide (k = key)) as [->|Hne].
  - destruct (data !! key) as [v|] eqn:E; [|now rewrite E].
    cbn [fmap option_fmap option_map]. destruct (eq_str v sentinel); cbn [negb].
    + now rewrite E.
    + apply lookup_insert_eq.
  - destruct (data !! key) as [v|]; [|reflexivity].
    destruct (eq_str v sentinel); cbn [negb]; [reflexivity | now apply lookup_insert_ne].
Qed.

Lemma cleanup_numeric_lookup (data : dict) (k : string) :
  cleanup_numeric py_repr data !! k
  = if decide (k = "total_balance" \/ k = "minimum_payment")
    then cleaned py_repr <$> data !! k
    else data !! k.
Proof.
  unfold cleanup_numeric. cbn [fold_left]. rewrite cleanup_field_lookup.
  destruct (decide (k = "minimum_payment")) as [->|H1].
  - rewrite decide_True by auto. rewrite cleanup_field_lookup.
    now rewrite decide_False by discriminate.
  - rewrite cleanup_field_lookup. destruct (decide (k = "total_balance")) as [->|H2].
    + now rewrite decide_True by auto.
    + now rewrite decide_False by tauto.
Qed.

Lemma cleaned_is_str (v : pyval) : exists s, cleaned py_repr v = PStr s.
Proof.
  unfold cleaned. destruct (eq_str v sentinel) eqn:E; [|eauto].
  apply eq_str_spec in E. eauto.
Qed.

End Cleanup.

Lemma infer_issuer_named (txt : string) :
  truthy (PStr (infer_issuer txt)) = true /\ PStr (infer_issuer txt) <> PStr sentinel.
Proof.
  unfold infer_issuer.
  repeat (match goal with
          | |- context [if ?b then _ else _] => destruct b
          end; try (split; [reflexivity | discriminate])).
Qed.

(** C2, as the code has it.  On a successful parse the field mapping holds
    the keys of the object the model returned and the key [issuer], no
    others: [issuer] is always bound, to a value that is neither empty nor
    the sentinel; [total_balance] and [minimum_payment], when the model's
    object has them, are bound to strings; every other key is bound as the
    model's object binds it, and is missing when the object lacks it. *)
Theorem extracted_fields_keys (json_loads : string -> outcome pyval) (py_repr : pyval -> string)
    (env : Collaborators) (self : CreditCardParser) (pdf_path : string)
    (log log' : list event) (r : dict) :
  parse json_loads py_repr env self pdf_path log = (log', Return r) ->
  r !! "success" = Some (PBool true) ->
  exists log0 pdf_text response_text model data,
    query_groq env self (build_prompt pdf_text) log0 = (log', Return response_text)
    /\ extract_json json_loads response_text = Return (PDict model)
    /\ r !! "data" = Some (PDict data)
    /\ (forall k, is_Some (data !! k) <-> k = "issuer" \/ is_Some (model !! k))
    /\ (exists v, data !! "issuer" = Some v /\ truthy v = true /\ v <> PStr sentinel)
    /\ (forall k v, k = "total_balance" \/ k = "minimum_payment" ->
                    data !! k = Some v -> exists s, v = PStr s)
    /\ (forall k, k <> "issuer" -> k <> "total_balance" -> k <> "minimum_payment" ->
                  data !! k = model !! k).
Proof.
  intros Hp Hs.
  destruct (parse_success_inv _ _ _ _ _ _ _ _ Hp Hs)
    as (log0 & t & resp & d & _ & _ & Q & J & ->).
  exists log0, t, resp, d, (cleanup_numeric py_repr (repair_issuer t d)).
  split_and!; [exact Q | exact J | apply success_result_data | | | |].
  - intros k. rewrite cleanup_numeric_lookup, !repair_issuer_lookup.
    destruct (decide (k = "issuer")) as [->|Hk].
    + rewrite decide_False by (intros [|]; discriminate).
      split; [auto|]. intros _.
      destruct (issuer_missing d) eqn:E; [eauto|].
      unfold issuer_missing in E. destruct (d !! "issuer"); [eauto | discriminate].
    + destruct (decide (k = "total_balance" \/ k = "minimum_payment")).
      * rewrite fmap_is_Some. tauto.
      * tauto.
  - rewrite cleanup_numeric_lookup, repair_issuer_lookup.
    rewrite decide_False by (intros [|]; discriminate). rewrite decide_True by reflexivity.
    destruct (issuer_missing d) eqn:E.
    + eexists. split; [reflexivity|]. apply infer_issuer_named.
    + unfold issuer_missing in E. destruct (d !! "issuer") as [v|]; [|discriminate].
      apply orb_false_elim in E as [T S]. apply negb_false_iff in T.
      exists v. split_and!; [reflexivity | exact T |].
      intros E%eq_str_spec. congruence.
  - intros k v Hk. rewrite cleanup_numeric_lookup. rewrite decide_True by exact Hk.
    destruct (repair_issuer t d !! k) as [w|]; [|discriminate].
    cbn. intros [= <-]. apply cleaned_is_str.
  - intros k H1 H2 H3. rewrite cleanup_numeric_lookup, repair_issuer_lookup.
    rewrite decide_False by tauto. now rewrite decide_False.
Qed.

(** C2, as stated, fails: the model returns an object with one of the six
    keys, and the successful result holds that key and the issuer; the
    other four are missing. *)
Lemma missing_keys_stay_missing :
  parse Runtime.json_loads Runtime.py_repr
    (Sample.world [Sample.text_page Sample.hsbc_page]
       (Return (Some (Sample.object_text [("card_last4", "1234")]))))
    Sample.with_key "statement.pdf" []
  = ([OpenPdf "statement.pdf"; ExtractText 1; ChatCompletion (build_prompt Sample.hsbc_page)],
     Return (success_result (<["issuer" := PStr "HSBC"]> (<["card_last4" := PStr "1234"]> ∅))))
  /\ (<["issuer" := PStr "HSBC"]> (<["card_last4" := PStr "1234"]> ∅) : dict) !! "due_date" = None.
Proof. split; vm_compute; reflexivity. Qed.

(** The theorem at the second scenario. *)
Lemma extracted_fields_witness :
  Sample.result2 !! "success" = Some (PBool true)
  /\ exists data : dict,
       Sample.result2 !! "data" = Some (PDict data)
       /\ (forall k, is_Some (data !! k) ->
                     k = "issuer" \/ In k (map fst Sample.members2))
       /\ (exists v, data !! "issuer" = Some v /\ truthy v = true /\ v <> PStr sentinel)
       /\ (forall k v, k = "total_balance" \/ k = "minimum_payment" ->
                       data !! k = Some v -> exists s, v = PStr s).
Proof.
  assert (H : Sample.result2 !! "success" = Some (PBool true)) by reflexivity.
  split; [exact H|].
  destruct (extracted_fields_keys Runtime.json_loads Runtime.py_repr
              (Sample.world [Sample.text_page Sample.hsbc_page] (Return (Some Sample.response2)))
              Sample.with_key "statement.pdf" [] _ _ scenario_2 H)
    as (log0 & t & resp & model & data & _ & _ & Hd & Hk & Hi & Hs & _).
  exists data. split_and!; [exact Hd | | exact Hi | exact Hs].
  assert (E : data = <["issuer" := PStr "HSBC"]>
                       (<["card_last4" := PStr "1234"]>
                          (<["statement_date" := PStr "2024-01-01"]>
                             (<["due_date" := PStr "2024-01-25"]>
                                (<["total_balance" := PStr "500"]>
                                   (<["minimum_payment" := PStr "25"]> ∅)))))).
  { vm_compute in Hd. now injection Hd as <-. }
  intros k [v Hv]. rewrite E in Hv. cbn [map fst Sample.members2 In].
  repeat (apply lookup_insert_Some in Hv as [[<- _]|[_ Hv]]; [tauto|]).
  rewrite lookup_empty in Hv. discriminate.
Defined.

(** ** Insights *)


(** A computation under [except Exception] does not raise. *)
Lemma try_all_returns {St : Type} (m : M St unit) (s : St) :
  exists s', try_except m is_Exception (fun _ => ret tt) s = (s', Return tt).
Proof.
  unfold try_except, is_Exception, ret.
  destruct (m s) as [s' [[]|e]]; eauto.
Qed.



(** ** Text acquisition *)

Lemma needs_ocr_spec (page : Page) (text : option string) :
  extract_text page = Return text -> needs_ocr text = true <-> Spec.illegible page.
Proof.
  intros H. unfold Spec.illegible. rewrite H. destruct text as [t|]; cbn [needs_ocr].
  - rewrite orb_true_iff, String.eqb_eq, Z.ltb_lt. split.
    + intros [->|L]; right; eexists; (split; [reflexivity|]); [vm_compute; reflexivity | exact L].
    + intros [[=]|(t' & [= <-] & L)]. now right.
  - split; auto.
Qed.

(** One page: extraction is asked, recognition is asked if the page is
    illegible, and the page resolves to a text. *)
Lemma resolve_page_spec (page_num : nat) (page : Page) (log : list event) :
  (exists text, extract_text page = Return text) ->
  exists events text,
    resolve_page page_num page log = (log ++ events, Return text)
    /\ Spec.resolved_text page text
    /\ (forall n, Recognize n ∈ events <-> n = page_num /\ Spec.illegible page).
Proof.
  intros [embedded Hx]. pose proof (needs_ocr_spec page embedded Hx) as Hn.
  unfold resolve_page, bind, call, try_except, ret, Spec.resolved_text. rewrite Hx.
  destruct (needs_ocr embedded) eqn:N.
  - assert (Hi : Spec.illegible page) by now apply Hn.
    exists [ExtractText page_num; Recognize page_num].
    destruct (image_to_string page) as [t|e].
    + exists t. rewrite <- app_assoc. split_and!; [reflexivity | left; auto |].
      intros n. rewrite !elem_of_cons, elem_of_nil. split.
      * intros [[=]|[[= ->]|[]]]. auto.
      * intros [-> _]. auto.
    + exists "". rewrite <- app_assoc. split_and!; [reflexivity | left; auto |].
      intros n. rewrite !elem_of_cons, elem_of_nil. split.
      * intros [[=]|[[= ->]|[]]]. auto.
      * intros [-> _]. auto.
  - assert (Hi : ~ Spec.illegible page) by (intros Hi%Hn; discriminate).
    destruct embedded as [t|]; [|discriminate].
    exists [ExtractText page_num], t. split_and!; [reflexivity | right; auto |].
    intros n. rewrite elem_of_cons, elem_of_nil. split.
    + intros [[=]|[]].
    + intros [_ Hi']. contradiction.
Qed.

Lemma resolve_pages_spec (pages : list Page) :
  Forall (fun page => exists text, extract_text page = Return text) pages ->
  forall (page_num : nat) (log : list event),
  exists events texts,
    resolve_pages page_num pages log = (log ++ events, Return texts)
    /\ (forall i page, pages !! i = Some page ->
          exists text, texts !! i = Some text /\ Spec.resolved_text page text)
    /\ length texts = length pages
    /\ (forall n, Recognize n ∈ events <->
          exists i page, n = (page_num + i)%nat /\ pages !! i = Some page /\ Spec.illegible page).
Proof.
  induction 1 as [|page pages Hpage _ IH]; intros page_num log.
  - exists [], []. cbn [resolve_pages]. unfold ret. rewrite app_nil_r.
    split_and!; [reflexivity | intros i p [=] | reflexivity |].
    intros n. rewrite elem_of_nil. split; [intros [] | intros (i & p & _ & [=] & _)].
  - destruct (resolve_page_spec page_num page log Hpage) as (ev1 & text & R1 & T1 & E1).
    destruct (IH (S page_num) (log ++ ev1)) as (ev2 & texts & R2 & T2 & L2 & E2).
    exists (ev1 ++ ev2), (text :: texts).
    cbn [resolve_pages]. unfold bind. rewrite R1, R2. unfold ret. rewrite <- app_assoc.
    split_and!; [reflexivity | | cbn [length]; now rewrite L2 |].
    + intros [|i] p; cbn; [intros [= <-]; eauto | apply T2].
    + intros n. rewrite elem_of_app, E1, E2. split.
      * intros [[-> Hi]|(i & p & -> & Hp & Hi)].
        -- exists 0%nat, page. rewrite Nat.add_0_r. auto.
        -- exists (S i), p. split_and!; [lia | exact Hp | exact Hi].
      * intros ([|i] & p & -> & Hp & Hi).
        -- left. injection Hp as <-. rewrite Nat.add_0_r. auto.
        -- right. exists i, p. split_and!; [lia | exact Hp | exact Hi].
Qed.





(** ** The first scenario *)

(** C9, as the code has it.  The model's amounts "$1,234.56" and "$50.00"
    are cleaned to "1234.56" and "50.00"; the months to pay off are
    1234.56 / 50.00, about 24.69 and above 24, so the critical insight is
    made; its estimated interest is balance x 0.18 x (months / 12), which is
    about 457.24.  The savings tip follows it. *)
Theorem long_payoff_insight :
  let data := cleanup_numeric Runtime.py_repr Sample.fields1 in
  let balance := 1234.56%float in
  let min_payment := 50%float in
  let months_to_payoff := (balance / min_payment)%float in
  let estimated_interest := (balance * 0.18 * (months_to_payoff / 12))%float in
  data = <["total_balance" := PStr "1234.56"]> (<["minimum_payment" := PStr "50.00"]> ∅)
  /\ Runtime.py_float "1234.56" = Return balance
  /\ Runtime.py_float "50.00" = Return min_payment
  /\ Flt.format_2f months_to_payoff = "24.69"
  /\ Flt.gt months_to_payoff 24 = true
  /\ Flt.format_2f estimated_interest = "457.24"
  /\ generate_insights Runtime.py_repr Runtime.py_float data
     = Return
         [ {| type := "critical";
              title := "Long Payoff Period";
              message := "Paying minimum only will take 24 months. Estimated interest: "
                         +:+ currency +:+ Flt.format_2f estimated_interest;
              priority := "critical" |};
           {| type := "info";
              title := "Smart Payment Tip";
              message := "Pay " +:+ currency +:+ "102.88/month to save ~" +:+ currency
                         +:+ "235.02 in interest";
              priority := "medium" |} ].
Proof. cbv zeta. split_and!; vm_compute; reflexivity. Qed.

(** C9, as stated, fails: the estimated interest of the critical insight is
    below 457.25, and its message reads 457.24, not 457.99. *)
Lemma interest_is_457_24 :
  PrimFloat.ltb (1234.56 * 0.18 * (1234.56 / 50 / 12))%float 457.25 = true
  /\ (message <$> generate_insights_first Runtime.py_repr Runtime.py_float
                    (cleanup_numeric Runtime.py_repr Sample.fields1))
     = Some ("Paying minimum only will take 24 months. Estimated interest: "
             +:+ currency +:+ "457.24").
Proof. split; vm_compute; reflexivity. Qed.

(** * Further properties of the code *)

(** ** Text acquisition, page by page *)

Lemma resolved_text_unique (page : Page) (t1 t2 : string) :
  Spec.resolved_text page t1 -> Spec.resolved_text page t2 -> t1 = t2.
Proof.
  unfold Spec.resolved_text. intros [[I1 H1]|[N1 H1]] [[I2 H2]|[N2 H2]]; try contradiction.
  - destruct (image_to_string page); congruence.
  - congruence.
Qed.

Lemma legible_not_illegible (page : Page) (t : string) :
  extract_text page = Return (Some t) -> 40 <= Str.py_len (Str.strip t) ->
  ~ Spec.illegible page.
Proof. intros H L [E|(t' & E & L')]; rewrite H in E; [discriminate|]. injection E as <-. lia. Qed.

Lemma resolve_pages_legible (pages : list Page) (texts : list string) :
  Forall2 (fun page t => extract_text page = Return (Some t)
                         /\ 40 <= Str.py_len (Str.strip t)) pages texts ->
  forall (page_num : nat) (log : list event),
  exists events,
    resolve_pages page_num pages log = (log ++ events, Return texts)
    /\ Forall (fun ev => exists n, ev = ExtractText n) events.
Proof.
  induction 1 as [|page t pages texts [Hx Hl] _ IH]; intros page_num log.
  - exists []. rewrite app_nil_r. split; [reflexivity | constructor].
  - destruct (IH (S page_num) (log ++ [ExtractText page_num])) as (events & R & F).
    exists (ExtractText page_num :: events).
    assert (N : needs_ocr (Some t) = false).
    { destruct (needs_ocr (Some t)) eqn:N; [|reflexivity].
      apply (needs_ocr_spec page _ Hx) in N.
      now apply (legible_not_illegible page t Hx Hl) in N. }
    cbn [resolve_pages]. unfold bind at 1. unfold resolve_page, bind, call, ret.
    rewrite Hx, N. unfold bind in R. cbn [or_empty]. rewrite R. rewrite <- app_assoc.
    split; [reflexivity|]. constructor; eauto.
Qed.

(** X1.  A document whose pages all carry at least 40 characters of
    embedded text, white space around them apart, is read without optical
    recognition: the text is the embedded texts, verbatim, joined by
    newlines in page order. *)
Theorem legible_document_verbatim (env : Collaborators) (pdf_path : string)
    (pages : list Page) (texts : list string) (log : list event) :
  pdfplumber_open env pdf_path = Return pages ->
  Forall2 (fun page t => extract_text page = Return (Some t)
                         /\ 40 <= Str.py_len (Str.strip t)) pages texts ->
  exists events,
    extract_text_from_pdf env pdf_path log
    = (log ++ events, Return (Str.join Str.newline texts))
    /\ forall n, Recognize n ∉ events.
Proof.
  intros Hopen Hpages.
  destruct (resolve_pages_legible pages texts Hpages 1 (log ++ [OpenPdf pdf_path]))
    as (events & R & F).
  exists (OpenPdf pdf_path :: events).
  unfold extract_text_from_pdf, try_except, bind, call. rewrite Hopen, R. unfold ret.
  rewrite <- app_assoc. split; [reflexivity|].
  intros n [[=]|Hin]%elem_of_cons.
  rewrite Forall_forall in F. destruct (F _ Hin) as [k [=]].
Qed.

Lemma legible_document_witness :
  exists events,
    extract_text_from_pdf
      (Sample.world [Sample.text_page Sample.hsbc_page; Sample.text_page Sample.both_page]
         (Return None))
      "statement.pdf" []
    = ([] ++ events, Return (Sample.hsbc_page +:+ Str.newline +:+ Sample.both_page))
    /\ forall n, Recognize n ∉ events.
Proof.
  apply (legible_document_verbatim
           (Sample.world [Sample.text_page Sample.hsbc_page; Sample.text_page Sample.both_page]
              (Return None))
           "statement.pdf"
           [Sample.text_page Sample.hsbc_page; Sample.text_page Sample.both_page]
           [Sample.hsbc_page; Sample.both_page] [] eq_refl).
  repeat constructor; vm_compute; discriminate.
Defined.

(** The calls one page makes bear its number. *)
Lemma resolve_page_calls (page_num : nat) (page : Page) (log : list event) :
  exists events o,
    resolve_page page_num page log = (log ++ events, o)
    /\ Forall (fun ev => ev = ExtractText page_num \/ ev = Recognize page_num) events.
Proof.
  unfold resolve_page, bind, call, try_except, ret.
  destruct (extract_text page) as [t|e].
  - destruct (needs_ocr t); [destruct (image_to_string page)|];
      eexists _, _; rewrite <- ?app_assoc; (split; [reflexivity|]); cbn [app];
      repeat (constructor; [auto|]); constructor.
  - eexists _, _. split; [reflexivity|].
    repeat (constructor; [auto|]); constructor.
Qed.

(** X2.  A page whose embedded extraction raises aborts the document,
    unlike a page on which recognition fails: the exception is wrapped as
    "Error reading PDF: ...", the pages after it are not read, and [parse]
    returns the wrapped message as its error. *)
Theorem failing_page_aborts (json_loads : string -> outcome pyval) (py_repr : pyval -> string)
    (env : Collaborators) (self : CreditCardParser) (pdf_path : string)
    (before after : list Page) (page : Page) (e : exn) (log : list event) :
  pdfplumber_open env pdf_path = Return (before ++ page :: after) ->
  Forall (fun page => exists text, extract_text page = Return text) before ->
  extract_text page = Raise e ->
  exists events,
    extract_text_from_pdf env pdf_path log
    = (log ++ events, Raise (Exn Exception ("Error reading PDF: " +:+ exn_str e)))
    /\ (forall n, (S (length before) < n)%nat ->
                  (ExtractText n ∉ events) /\ (Recognize n ∉ events))
    /\ parse json_loads py_repr env self pdf_path log
       = (log ++ events, Return (failure ("Error reading PDF: " +:+ exn_str e))).
Proof.
  intros Hopen Hbefore Hpage.
  assert (R : forall page_num l,
             exists events,
               resolve_pages page_num (before ++ page :: after) l = (l ++ events, Raise e)
               /\ forall n, (page_num + length before < n)%nat ->
                            (ExtractText n ∉ events) /\ (Recognize n ∉ events)).
  { clear Hopen. induction Hbefore as [|p before Hp _ IH]; intros page_num l.
    - exists [ExtractText page_num]. cbn [app resolve_pages].
      unfold bind at 1. unfold resolve_page, bind, call. rewrite Hpage.
      split; [reflexivity|]. intros n Hn.
      split; intros [[=]|[]%elem_of_nil]%elem_of_cons. cbn in Hn. lia.
    - destruct (resolve_page_spec page_num p l Hp) as (ev1 & text & R1 & _ & E1).
      destruct (IH (S page_num) (l ++ ev1)) as (ev2 & R2 & E2).
      exists (ev1 ++ ev2). cbn [app resolve_pages]. unfold bind at 1. rewrite R1.
      unfold bind. rewrite R2. rewrite <- app_assoc. split; [reflexivity|].
      intros n Hn. cbn [length] in Hn. destruct (E2 n) as [Ex Er]; [lia|].
      destruct (resolve_page_calls page_num p l) as (ev1' & o & C & F).
      rewrite R1 in C. injection C as C _. apply app_inv_head in C. subst ev1'.
      rewrite Forall_forall in F.
      split; rewrite elem_of_app; (intros [Hin|Hin]; [|tauto]);
        destruct (F _ Hin) as [[=]|[=]]; lia. }
  destruct (R 1%nat (log ++ [OpenPdf pdf_path])) as (events & Rp & E).
  exists (OpenPdf pdf_path :: events).
  assert (X : extract_text_from_pdf env pdf_path log
              = (log ++ OpenPdf pdf_path :: events,
                 Raise (Exn Exception ("Error reading PDF: " +:+ exn_str e)))).
  { unfold extract_text_from_pdf, try_except, bind, call. rewrite Hopen, Rp.
    unfold raise. now rewrite <- app_assoc. }
  split_and!; [exact X | | exact (parse_read_failure _ _ _ _ _ _ _ _ X)].
  intros n Hn. destruct (E n) as [Ex Er]; [lia|].
  split; intros [[=]|Hin]%elem_of_cons; tauto.
Qed.

Lemma failing_page_witness :
  exists events,
    parse Runtime.json_loads Runtime.py_repr
      (Sample.world [Sample.text_page Sample.hsbc_page;
                     {| extract_text := Raise (Exn (OtherError "PDFSyntaxError") "bad page");
                        image_to_string := Return "never read" |};
                     Sample.text_page Sample.both_page] (Return None))
      Sample.with_key "statement.pdf" []
    = ([] ++ events, Return (failure "Error reading PDF: bad page"))
    /\ (ExtractText 3 ∉ events).
Proof.
  destruct (failing_page_aborts Runtime.json_loads Runtime.py_repr
              (Sample.world [Sample.text_page Sample.hsbc_page;
                             {| extract_text := Raise (Exn (OtherError "PDFSyntaxError") "bad page");
                                image_to_string := Return "never read" |};
                             Sample.text_page Sample.both_page] (Return None))
              Sample.with_key "statement.pdf"
              [Sample.text_page Sample.hsbc_page] [Sample.text_page Sample.both_page]
              {| extract_text := Raise (Exn (OtherError "PDFSyntaxError") "bad page");
                 image_to_string := Return "never read" |}
              (Exn (OtherError "PDFSyntaxError") "bad page") [] eq_refl)
    as (events & _ & E & P).
  - repeat constructor. eexists. reflexivity.
  - reflexivity.
  - exists events. split; [exact P|]. apply (E 3%nat). cbn. lia.
Defined.

(** ** The calls of a parse *)

Lemma resolve_pages_calls (pages : list Page) :
  forall (page_num : nat) (log : list event),
  exists events o,
    resolve_pages page_num pages log = (log ++ events, o)
    /\ Forall (fun ev => is_chat ev = false) events.
Proof.
  induction pages as [|page pages IH]; intros page_num log.
  - exists [], (Return []). rewrite app_nil_r. split; [reflexivity | constructor].
  - destruct (resolve_page_calls page_num page log) as (ev1 & o1 & R1 & F1).
    assert (F1' : Forall (fun ev => is_chat ev = false) ev1).
    { eapply Forall_impl; [exact F1|]. intros ev [-> | ->]; reflexivity. }
    cbn [resolve_pages]. unfold bind at 1. rewrite R1. destruct o1 as [text|e].
    + destruct (IH (S page_num) (log ++ ev1)) as (ev2 & o2 & R2 & F2).
      unfold bind. rewrite R2. rewrite <- app_assoc.
      destruct o2; eexists _, _; (split; [reflexivity|]); now apply Forall_app.
    + eexists _, _. split; [reflexivity | exact F1'].
Qed.

Lemma extract_calls (env : Collaborators) (pdf_path : string) (log : list event) :
  exists events o,
    extract_text_from_pdf env pdf_path log = (log ++ events, o)
    /\ Forall (fun ev => is_chat ev = false) events.
Proof.
  unfold extract_text_from_pdf, try_except, bind, call.
  destruct (pdfplumber_open env pdf_path) as [pages|e].
  - destruct (resolve_pages_calls pages 1 (log ++ [OpenPdf pdf_path])) as (evs & o & R & F).
    rewrite R, <- app_assoc.
    destruct o; eexists _, _; (split; [reflexivity|]); constructor; auto.
  - eexists _, _. split; [reflexivity|]. repeat constructor.
Qed.

Lemma query_groq_calls (env : Collaborators) (self : CreditCardParser) (prompt : string)
    (log : list event) :
  exists chat o,
    query_groq env self prompt log = (log ++ chat, o)
    /\ (chat = [] \/ chat = [ChatCompletion prompt]).
Proof.
  unfold query_groq. destruct (key_missing self).
  - exists [], (Raise (Exn Exception "GROQ_API_KEY not configured. Please add it to .env file.")).
    rewrite app_nil_r. auto.
  - unfold try_except, bind, call.
    destruct (chat_completions_create env (or_empty (groq_api_key self)) prompt) as [[r|]|e];
      eexists _, _; (split; [reflexivity|]); auto.
Qed.

(** X3.  A parse calls the model at most once, and last: the calls before
    it are to the document, none is repeated after a failure, and the one
    prompt sent is built from the text that was acquired. *)
Theorem single_attempt (json_loads : string -> outcome pyval) (py_repr : pyval -> string)
    (env : Collaborators) (self : CreditCardParser) (pdf_path : string) (log : list event) :
  exists before chat r,
    parse json_loads py_repr env self pdf_path log = (log ++ before ++ chat, Return r)
    /\ Forall (fun ev => is_chat ev = false) before
    /\ (chat = []
        \/ exists pdf_text,
             chat = [ChatCompletion (build_prompt pdf_text)]
             /\ extract_text_from_pdf env pdf_path log = (log ++ before, Return pdf_text)).
Proof.
  destruct (parse_path json_loads py_repr env self pdf_path log) as (log' & r & Hp & Hpath).
  destruct (extract_calls env pdf_path log) as (before & o & X & F).
  rewrite Hp.
  destruct Hpath as [log0 e H|log0 t H E|log0 log1 t e H E Q|log0 log1 t resp H E Q];
    rewrite H in X; injection X as -> _.
  1, 2: exists before, []; eexists; rewrite app_nil_r; (split_and!; [reflexivity | exact F | auto]).
  all: destruct (query_groq_calls env self (build_prompt t) (log ++ before))
         as (chat & o' & Q' & C);
       rewrite Q in Q'; injection Q' as -> _;
       exists before, chat; eexists; rewrite <- app_assoc;
       (split_and!; [reflexivity | exact F |]);
       destruct C as [-> | ->]; eauto.
Qed.

Lemma starts_with_newline (s : string) :
  Str.starts_with_any Str.whitespace (String "010"%char s) = 1%nat.
Proof. cbn. now rewrite prefix_empty. Qed.

(** The white space that joins pages without text strips to nothing. *)
Lemma strip_front_newlines (s : string) :
  (forall a, Str.contains s (String a EmptyString) = true -> a = "010"%char) ->
  Str.strip_front Str.whitespace 0 s = EmptyString.
Proof.
  induction s as [|a s IH]; intros H; [reflexivity|].
  assert (a = "010"%char) as ->.
  { apply H. rewrite contains_cons, Ascii.eqb_refl. reflexivity. }
  cbn [Str.strip_front]. rewrite starts_with_newline.
  apply IH. intros b Hb. apply H. rewrite contains_cons, Hb. apply orb_true_r.
Qed.

Lemma join_empty_texts (texts : list string) (a : ascii) :
  Forall (fun t => t = EmptyString) texts ->
  Str.contains (Str.join Str.newline texts) (String a EmptyString) = true ->
  a = "010"%char.
Proof.
  induction 1 as [|t texts -> _ IH]; [discriminate|].
  destruct texts as [|t' texts]; [discriminate|].
  change (Str.join Str.newline ("" :: t' :: texts))
    with (String "010"%char (Str.join Str.newline (t' :: texts))).
  rewrite contains_cons. intros [Ha|Hs]%orb_true_iff; [|auto].
  apply Ascii.eqb_eq in Ha. now subst.
Qed.

(** X4.  A document none of whose pages resolves to any text (no embedded
    text, and recognition fails or reads nothing) is reported as "Could not
    extract text from PDF", with or without a credential, and the model is
    not called. *)
Theorem unreadable_document (json_loads : string -> outcome pyval) (py_repr : pyval -> string)
    (env : Collaborators) (self : CreditCardParser) (pdf_path : string)
    (pages : list Page) (log : list event) :
  pdfplumber_open env pdf_path = Return pages ->
  Forall (fun page => (exists text, extract_text page = Return text)
                      /\ Spec.resolved_text page "") pages ->
  exists events,
    parse json_loads py_repr env self pdf_path log
    = (log ++ events, Return (failure "Could not extract text from PDF"))
    /\ Forall (fun ev => is_chat ev = false) events.
Proof.
  intros Hopen Hpages.
  destruct (extract_calls env pdf_path log) as (events & o & X & F).
  exists events. split; [|exact F].
  assert (Hx : Forall (fun page => exists text, extract_text page = Return text) pages).
  { eapply Forall_impl; [exact Hpages|]. now intros p [H _]. }
  destruct (resolve_pages_spec pages Hx 1 (log ++ [OpenPdf pdf_path]))
    as (evs & texts & R & T & L & _).
  assert (Hempty : Forall (fun t => t = EmptyString) texts).
  { apply Forall_lookup. intros i t Ht.
    destruct (lookup_lt_is_Some_2 pages i) as [p Hp].
    { rewrite <- L. eapply lookup_lt_Some. exact Ht. }
    destruct (T i p Hp) as (t' & Ht' & Hr). rewrite Ht in Ht'. injection Ht' as <-.
    rewrite Forall_lookup in Hpages. destruct (Hpages i p Hp) as [_ Hr'].
    exact (resolved_text_unique p _ _ Hr Hr'). }
  assert (Hx' : extract_text_from_pdf env pdf_path log
                = (log ++ OpenPdf pdf_path :: evs, Return (Str.join Str.newline texts))).
  { unfold extract_text_from_pdf, try_except, bind, call. rewrite Hopen, R. unfold ret.
    now rewrite <- app_assoc. }
  rewrite Hx' in X. injection X as X _. apply app_inv_head in X. subst events.
  apply (parse_no_text _ _ _ _ _ _ _ _ Hx').
  unfold Str.strip, Str.lstrip.
  rewrite strip_front_newlines; [reflexivity|].
  intros a. apply join_empty_texts. exact Hempty.
Qed.

Lemma unreadable_document_witness :
  exists events,
    parse Runtime.json_loads Runtime.py_repr
      (Sample.world [Sample.unreadable_page; Sample.scanned_page ""] (Return (Some "{}")))
      Sample.without_key "scan.pdf" []
    = ([] ++ events, Return (failure "Could not extract text from PDF"))
    /\ Forall (fun ev => is_chat ev = false) events.
Proof.
  apply (unreadable_document Runtime.json_loads Runtime.py_repr
           (Sample.world [Sample.unreadable_page; Sample.scanned_page ""] (Return (Some "{}")))
           Sample.without_key "scan.pdf"
           [Sample.unreadable_page; Sample.scanned_page ""] [] eq_refl).
  repeat constructor; try (eexists; reflexivity); left; (split; [left|]); reflexivity.
Defined.

(** ** The prompt *)




(** ** Scoring and cleaning *)

Lemma is_extracted_ext (d1 d2 : dict) (f : string) :
  d1 !! f = d2 !! f -> is_extracted d1 f = is_extracted d2 f.
Proof. unfold is_extracted. now intros ->. Qed.

(** X6.  The issuer does not count: whatever the model returned for it and
    whatever the document says, repairing the issuer changes neither the
    number of extracted fields nor the success rate of the result. *)
Theorem issuer_does_not_count (py_repr : pyval -> string) (pdf_text : string) (data : dict) :
  let repaired := success_result (cleanup_numeric py_repr (repair_issuer pdf_text data)) in
  let as_given := success_result (cleanup_numeric py_repr data) in
  repaired !! "extracted_fields" = as_given !! "extracted_fields"
  /\ repaired !! "success_rate" = as_given !! "success_rate".
Proof.
  cbv zeta.
  assert (E : count_extracted (cleanup_numeric py_repr (repair_issuer pdf_text data))
              = count_extracted (cleanup_numeric py_repr data)).
  { unfold count_extracted, required. cbn [List.filter].
    rewrite !(is_extracted_ext (cleanup_numeric py_repr (repair_issuer pdf_text data))
                (cleanup_numeric py_repr data));
      [reflexivity|..];
      rewrite !cleanup_numeric_lookup, !repair_issuer_lookup;
      rewrite (decide_False (P := _ = "issuer")) by discriminate; reflexivity. }
  rewrite !success_result_extracted, !success_result_rate, E. auto.
Qed.

(** X18.  The success rate is 20 times the number of extracted fields,
    exactly: it is one of 0, 20, 40, 60, 80 and 100, and the rounding to one
    decimal never changes it. *)
Theorem rate_is_twenty_per_field (data : dict) :
  exists n,
    success_result data !! "extracted_fields" = Some (PInt n)
    /\ 0 <= n <= 5
    /\ success_result data !! "success_rate" = Some (PFloat (Flt.of_int (20 * n)))
    /\ Flt.round1 (Flt.of_int (20 * n)) = Flt.of_int (20 * n).
Proof.
  exists (count_extracted data).
  assert (R : 0 <= count_extracted data <= 5).
  { rewrite count_extracted_spec. apply count_range. }
  rewrite success_result_extracted, success_result_rate.
  destruct (rate_values _ R) as (Hr & _).
  split_and!; [reflexivity | lia | lia | now rewrite Hr |].
  assert (E : count_extracted data = 0 \/ count_extracted data = 1
              \/ count_extracted data = 2 \/ count_extracted data = 3
              \/ count_extracted data = 4 \/ count_extracted data = 5) by lia.
  destruct E as [->|[->|[->|[->|[->| ->]]]]]; vm_compute; reflexivity.
Qed.

Section Characters.
Variable c : ascii.

Lemma delete_from_keeps_out (old : string) (s : string) :
  Str.contains s (String c EmptyString) = false ->
  forall skip, Str.contains (Str.delete_from old skip s) (String c EmptyString) = false.
Proof.
  induction s as [|a s IH]; intros H skip; [reflexivity|].
  rewrite contains_cons in H. apply orb_false_elim in H as [Ha Hs].
  cbn [Str.delete_from]. destruct skip as [|k]; [|now apply IH].
  destruct (String.prefix old (String a s)); [now apply IH|].
  rewrite contains_cons, Ha. now apply IH.
Qed.

Lemma delete_char_gone (s : string) :
  Str.contains (Str.delete_all (String c EmptyString) s) (String c EmptyString) = false.
Proof.
  unfold Str.delete_all. induction s as [|a s IH]; [reflexivity|].
  cbn [Str.delete_from String.prefix String.length Nat.pred].
  destruct (ascii_dec c a) as [->|Hne].
  - rewrite prefix_empty. exact IH.
  - rewrite contains_cons, IH.
    destruct (Ascii.eqb_spec a c) as [->|_]; [contradiction | reflexivity].
Qed.

Lemma strip_front_keeps_out (table : list string) (s : string) :
  Str.contains s (String c EmptyString) = false ->
  forall skip, Str.contains (Str.strip_front table skip s) (String c EmptyString) = false.
Proof.
  induction s as [|a s IH]; intros H skip; [reflexivity|].
  pose proof H as H'. rewrite contains_cons in H'. apply orb_false_elim in H' as [Ha Hs].
  cbn [Str.strip_front]. destruct skip as [|k]; [|now apply IH].
  destruct (Str.starts_with_any table (String a s)); [exact H | now apply IH].
Qed.

Lemma contains_rev (s : string) :
  Str.contains (Str.rev s) (String c EmptyString) = Str.contains s (String c EmptyString).
Proof.
  induction s as [|a s IH]; [reflexivity|].
  cbn [Str.rev]. rewrite contains_app, IH, !contains_cons, contains_nil.
  rewrite orb_false_r. apply orb_comm.
Qed.

Lemma strip_keeps_out (s : string) :
  Str.contains s (String c EmptyString) = false ->
  Str.contains (Str.strip s) (String c EmptyString) = false.
Proof.
  intros H. unfold Str.strip, Str.rstrip, Str.lstrip.
  rewrite contains_rev. apply strip_front_keeps_out.
  rewrite contains_rev. now apply strip_front_keeps_out.
Qed.

End Characters.

(** X7.  After the cleanup of the numeric fields, a balance or minimum
    payment that is not the sentinel is a string with no dollar sign and no
    comma in it, whatever the model returned. *)
Theorem cleaned_amounts (py_repr : pyval -> string) (data : dict) (key : string) (v : pyval) :
  key = "total_balance" \/ key = "minimum_payment" ->
  cleanup_numeric py_repr data !! key = Some v ->
  v <> PStr sentinel ->
  exists s, v = PStr s /\ Str.contains s "$" = false /\ Str.contains s "," = false.
Proof.
  intros Hk Hv Hs. rewrite cleanup_numeric_lookup, decide_True in Hv by exact Hk.
  destruct (data !! key) as [w|]; [|discriminate]. cbn in Hv. injection Hv as <-.
  unfold cleaned in *. destruct (eq_str w sentinel) eqn:E.
  - apply eq_str_spec in E. contradiction.
  - eexists. split; [reflexivity|]. unfold clean_number. split.
    + apply strip_keeps_out. apply delete_from_keeps_out. apply delete_from_keeps_out.
      apply delete_char_gone.
    + apply strip_keeps_out. apply delete_char_gone.
Qed.

Lemma cleaned_amounts_witness :
  cleanup_numeric Runtime.py_repr Sample.fields1 !! "total_balance" = Some (PStr "1234.56")
  /\ exists s, PStr "1234.56" = PStr s
               /\ Str.contains s "$" = false /\ Str.contains s "," = false.
Proof.
  assert (H : cleanup_numeric Runtime.py_repr Sample.fields1 !! "total_balance"
              = Some (PStr "1234.56")) by (vm_compute; reflexivity).
  split; [exact H|].
  apply (cleaned_amounts Runtime.py_repr Sample.fields1 "total_balance" (PStr "1234.56"));
    [left; reflexivity | exact H | discriminate].
Defined.

(** X8.  A completion without content is a failure of the service: the
    length of the response is taken for the log line, which raises, and
    [parse] returns "Groq API Error: object of type 'NoneType' has no
    len()" after the one call. *)
Theorem empty_completion_is_reported (json_loads : string -> outcome pyval)
    (py_repr : pyval -> string) (env : Collaborators) (self : CreditCardParser)
    (pdf_path key pdf_text : string) (log log0 : list event) :
  extract_text_from_pdf env pdf_path log = (log0, Return pdf_text) ->
  String.eqb (Str.strip pdf_text) "" = false ->
  groq_api_key self = Some key -> String.eqb key "" = false ->
  chat_completions_create env key (build_prompt pdf_text) = Return None ->
  parse json_loads py_repr env self pdf_path log
  = (log0 ++ [ChatCompletion (build_prompt pdf_text)],
     Return (failure "Groq API Error: object of type 'NoneType' has no len()")).
Proof.
  intros H E Hk Hne Hc.
  apply (parse_query_failure _ _ _ _ _ _ _ _ _
           (Exn Exception "Groq API Error: object of type 'NoneType' has no len()") H E).
  unfold query_groq, key_missing. rewrite Hk, Hne.
  unfold try_except, bind, call. cbn [or_empty]. rewrite Hc. reflexivity.
Qed.

Lemma empty_completion_witness :
  parse Runtime.json_loads Runtime.py_repr
    (Sample.world [Sample.text_page Sample.hsbc_page] (Return None))
    Sample.with_key "statement.pdf" []
  = ([OpenPdf "statement.pdf"; ExtractText 1] ++ [ChatCompletion (build_prompt Sample.hsbc_page)],
     Return (failure "Groq API Error: object of type 'NoneType' has no len()")).
Proof.
  apply (empty_completion_is_reported Runtime.json_loads Runtime.py_repr
           (Sample.world [Sample.text_page Sample.hsbc_page] (Return None))
           Sample.with_key "statement.pdf" "gsk_live" Sample.hsbc_page []
           [OpenPdf "statement.pdf"; ExtractText 1]);
    vm_compute; reflexivity.
Defined.

(** ** The list of insights *)

(** X9.  The insights come in the order of the rules, each at most once:
    the list returned, read by type and priority, is a sublist of warning
    (high), critical (critical), info (medium); it is never sorted by
    priority, and holds at most three insights. *)
Theorem insights_in_rule_order (py_repr : pyval -> string) (py_float : string -> outcome float)
    (data : dict) :
  exists insights,
    generate_insights py_repr py_float data = Return insights
    /\ sublist (map (fun i => (type i, priority i)) insights) insight_kinds
    /\ (length insights <= 3)%nat.
Proof.
  assert (S : forall l : list Insight,
             sublist (map (fun i => (type i, priority i)) l) insight_kinds ->
             sublist (map (fun i => (type i, priority i)) l) insight_kinds
             /\ (length l <= 3)%nat).
  { intros l H. split; [exact H|].
    apply sublist_length in H. rewrite length_map in H. exact H. }
  unfold generate_insights, generate_insights_body, try_except, insight_rules, bind, lift,
    when, append, modify, ret, is_Exception.
  repeat (cbv beta iota zeta;
          match goal with
          | |- context [data !! ?k] => destruct (data !! k)
          | |- context [py_float ?s] => destruct (py_float s)
          | |- context [Flt.to_int ?x] => destruct (Flt.to_int x)
          | |- context [if ?c then _ else _] => destruct c
          end);
    cbv beta iota zeta; eexists; (split; [reflexivity|]); apply S;
    cbn [map type priority app]; unfold insight_kinds;
    repeat first [apply sublist_nil | apply sublist_skip | apply sublist_cons].
Qed.

(** X10.  When the months to pay off overflow to infinity, converting them
    for the message raises; the handler keeps what was appended before: the
    result is the high-balance warning if the balance is above 5000 and
    nothing else, and no error is raised. *)
Theorem infinite_payoff_keeps_warning (py_repr : pyval -> string)
    (py_float : string -> outcome float) (data : dict) (total_balance minimum_payment : pyval)
    (balance min_payment : float) :
  data !! "total_balance" = Some total_balance ->
  data !! "minimum_payment" = Some minimum_payment ->
  py_float (strip_amount py_repr total_balance) = Return balance ->
  py_float (strip_amount py_repr minimum_payment) = Return min_payment ->
  Flt.gt balance 0 = true -> Flt.gt min_payment 0 = true ->
  (balance / min_payment)%float = infinity ->
  exists insights,
    generate_insights py_repr py_float data = Return insights
    /\ map type insights = (if Flt.gt balance 5000 then ["warning"] else []).
Proof.
  intros Htb Hmp Hb Hm Pb Pm Hinf.
  unfold generate_insights, generate_insights_body, try_except. rewrite Htb, Hmp.
  unfold insight_rules, bind, lift, ret, when, append, modify.
  rewrite Hb, Hm, Pb, Pm. cbn [andb]. rewrite Hinf.
  change (Flt.gt infinity 24) with true.
  change (Flt.to_int infinity)
    with (@Raise Z (Exn OverflowError "cannot convert float infinity to integer")).
  cbn [is_ValueError_or_TypeError exn_cls is_Exception].
  destruct (Flt.gt balance 5000); eexists; split; reflexivity.
Qed.

Lemma infinite_payoff_witness :
  exists insights,
    generate_insights Runtime.py_repr Runtime.py_float
      (<["total_balance" := PStr ("1" +:+ copies 308 "0")]>
         (<["minimum_payment" := PStr "0.0000000001"]> ∅))
    = Return insights
    /\ map type insights = ["warning"].
Proof.
  destruct (infinite_payoff_keeps_warning Runtime.py_repr Runtime.py_float
              (<["total_balance" := PStr ("1" +:+ copies 308 "0")]>
                 (<["minimum_payment" := PStr "0.0000000001"]> ∅))
              (PStr ("1" +:+ copies 308 "0")) (PStr "0.0000000001")
              1e308%float 1e-10%float)
    as (insights & R & T); try (vm_compute; reflexivity).
  exists insights. split; [exact R|]. exact T.
Defined.

(** ** Uploads: the file name *)

Lemma app_empty_r (s : string) : s +:+ EmptyString = s.
Proof. induction s as [|a s IH]; [reflexivity|]. rewrite app_cons. now rewrite IH. Qed.

Lemma rfind_present (s : string) (c : ascii) :
  Str.contains s (String c EmptyString) = true -> 0 <= Str.rfind s c.
Proof.
  induction s as [|a s IH]; [discriminate|].
  rewrite contains_cons. cbn [Str.rfind]. intros H.
  destruct (Z.leb_spec 0 (Str.rfind s c)); [lia|].
  destruct (Str.contains s (String c EmptyString)); [specialize (IH eq_refl); lia|].
  rewrite orb_false_r in H. rewrite H. lia.
Qed.

(** X11.  [allowed_file] never raises.  A name without a dot is refused;
    a name with one is allowed exactly when what follows its last dot
    lower-cases to "pdf", so ["scan.PDF"] and [".pdf"] are allowed and
    ["scan.pdf.exe"] is not. *)
Theorem allowed_file_rule (filename : string) :
  (exists b, App.allowed_file filename = Return b)
  /\ (Str.contains filename "." = false -> App.allowed_file filename = Return false)
  /\ (forall base ext,
        filename = base +:+ "." +:+ ext -> Str.contains ext "." = false ->
        App.allowed_file filename = Return (bool_decide (Str.lower ext = "pdf"))).
Proof.
  split_and!.
  - unfold App.allowed_file. destruct (Str.contains filename ".") eqn:C; [|eauto].
    apply rfind_present in C. unfold App.rsplit_1.
    destruct (Z.ltb_spec (Str.rfind filename ".") 0); [lia|]. cbn. eauto.
  - intros H. unfold App.allowed_file. now rewrite H.
  - intros base ext -> Hext. unfold App.allowed_file, App.rsplit_1.
    change ("." +:+ ext) with (String "." ext).
    assert (C : Str.contains (base +:+ String "." ext) "." = true).
    { rewrite contains_app, contains_cons, Ascii.eqb_refl. now rewrite orb_true_r. }
    rewrite C.
    rewrite (rfind_last _ base ext Hext).
    destruct (Z.ltb_spec (Z.of_nat (String.length base)) 0); [lia|].
    cbn [App.index lookup list_lookup].
    assert (E : Str.slice (base +:+ String "." ext) (Z.of_nat (String.length base) + 1)
                  (Z.of_nat (String.length (base +:+ String "." ext))) = ext).
    { pose proof (slice_middle (base +:+ ".") ext "") as M.
      rewrite app_empty_r, app_assoc_str, length_app in M. cbn [String.length] in M.
      change ("." +:+ ext) with (String "." ext) in M.
      rewrite length_app. cbn [String.length].
      rewrite <- M at 3. f_equal; lia. }
    rewrite E. f_equal. apply bool_decide_ext. unfold App.ALLOWED_EXTENSIONS.
    now rewrite elem_of_singleton.
Qed.

Lemma allowed_file_witness :
  App.allowed_file "scan.PDF" = Return true
  /\ App.allowed_file ".pdf" = Return true
  /\ App.allowed_file "scan.pdf.exe" = Return false.
Proof.
  split_and!.
  - exact (proj2 (proj2 (allowed_file_rule "scan.PDF")) "scan" "PDF" eq_refl eq_refl).
  - exact (proj2 (proj2 (allowed_file_rule ".pdf")) "" "pdf" eq_refl eq_refl).
  - exact (proj2 (proj2 (allowed_file_rule "scan.pdf.exe")) "scan.pdf" "exe" eq_refl eq_refl).
Defined.

(** X12.  Every issuer the parser can infer, "Unknown" apart, is one the
    service lists as supported. *)
Theorem inferred_issuers_are_listed (txt : string) :
  infer_issuer txt = "Unknown" \/ infer_issuer txt ∈ App.supported_issuers.
Proof.
  unfold infer_issuer, App.supported_issuers.
  repeat (match goal with
          | |- context [if ?b then _ else _] => destruct b
          end; try (right; set_solver)).
  now left.
Qed.

(** ** The history file *)

Lemma save_history_step (entry : pyval) (file : App.history_file) (old : list pyval) :
  (file = None /\ old = []) \/ file = Some (Return (PList old)) ->
  App.save_history entry file
  = (Some (Return (PList (firstn 20 (entry :: old)))), Return tt).
Proof. intros [[-> ->]| ->]; reflexivity. Qed.

Lemma firstn_app_firstn {A} (n m : nat) (a b : list A) :
  (n <= m)%nat -> firstn n (a ++ firstn m b) = firstn n (a ++ b).
Proof.
  revert n. induction a as [|x a IH]; intros n H.
  - cbn [app]. rewrite firstn_firstn. f_equal. lia.
  - destruct n as [|n]; [reflexivity|]. cbn [app firstn]. f_equal. apply IH. lia.
Qed.

(** X13.  The history keeps the 20 latest entries, the latest first: after
    saving one entry after another, on a history that did not exist or held
    a list, loading gives the entries saved, in reverse order of saving,
    then the ones that were there, cut to 20. *)
Theorem history_keeps_latest (entries old : list pyval) (file : App.history_file) :
  (file = None /\ old = []) \/ file = Some (Return (PList old)) ->
  entries <> [] ->
  let file' := fold_left (fun f entry => fst (App.save_history entry f)) entries file in
  App.load_history file' = (file', Return (PList (firstn 20 (rev entries ++ old))))
  /\ (length (firstn 20 (rev entries ++ old)) <= 20)%nat.
Proof.
  intros Hfile Hne. cbv zeta. split; [|apply firstn_le_length].
  assert (F : fold_left (fun f entry => fst (App.save_history entry f)) entries file
              = Some (Return (PList (firstn 20 (rev entries ++ old))))).
  { revert file old Hfile. induction entries as [|e entries IH]; [contradiction|].
    intros file old Hfile. cbn [fold_left]. rewrite (save_history_step e file old Hfile).
    cbn [fst]. destruct entries as [|e' entries]; [reflexivity|].
    rewrite (IH ltac:(discriminate) _ (firstn 20 (e :: old))) by auto.
    rewrite firstn_app_firstn by lia. cbn [rev]. now rewrite <- !app_assoc. }
  rewrite F. reflexivity.
Qed.

Lemma history_keeps_latest_witness :
  App.load_history
    (fold_left (fun f entry => fst (App.save_history entry f)) [PInt 1; PInt 2; PInt 3] None)
  = (Some (Return (PList [PInt 3; PInt 2; PInt 1])), Return (PList [PInt 3; PInt 2; PInt 1])).
Proof.
  exact (proj1 (history_keeps_latest [PInt 1; PInt 2; PInt 3] [] None
                  (or_introl (conj eq_refl eq_refl)) ltac:(discriminate))).
Defined.

(** ** The upload route *)

Lemma allowed_file_returns (filename : string) :
  exists b, App.allowed_file filename = Return b.
Proof.
  unfold App.allowed_file. destruct (Str.contains filename ".") eqn:C; [|eauto].
  apply rfind_present in C. unfold App.rsplit_1.
  destruct (Z.ltb_spec (Str.rfind filename ".") 0); [lia|]. cbn. eauto.
Qed.

Lemma generate_insights_returns (py_repr : pyval -> string) (py_float : string -> outcome float)
    (data : dict) :
  exists insights, generate_insights py_repr py_float data = Return insights.
Proof.
  unfold generate_insights, generate_insights_body.
  match goal with
  | |- context [try_except ?m _ _ _] => destruct (try_all_returns m (@nil Insight)) as [s' ->]
  end.
  eauto.
Qed.

Lemma answers_with_bind {St A : Type} (status : Z) (m : M St A) (k : A -> M St (dict * Z)) :
  (forall a, App.answers_with status (k a)) -> App.answers_with status (bind m k).
Proof.
  intros H s s' response n. unfold bind. destruct (m s) as [s1 [a|e]]; [apply H | discriminate].
Qed.

Lemma answers_with_ret {St : Type} (status : Z) (response : dict) :
  App.answers_with (St := St) status (ret (response, status)).
Proof. intros s s' r k [= _ _ <-]. reflexivity. Qed.

Section Route.
Variable json_loads : string -> outcome pyval.
Variable py_repr : pyval -> string.
Variable py_float : string -> outcome float.
Variable env : Collaborators.
Variable secure_filename : string -> string.
Variable getenv_key : option string.
Variable now_isoformat now_strftime : string.

#[local] Abbreviation route :=
  (App.parse_statement json_loads py_repr py_float env secure_filename getenv_key
     now_isoformat now_strftime).

(** X14.  The upload route answers every request whose form could be read,
    that is every request within [MAX_CONTENT_LENGTH]: on these it never
    raises, and its status is 200, 400 or 500.  The status is 400 exactly
    when the request is refused (no file part, an empty file name, or a
    name that is not allowed), and then nothing has happened: no file was
    saved, no document opened, no model called, the history is as it was.
    (A larger request is answered 413 by Flask, outside the route.) *)
Theorem upload_gate (request : App.Request) (st : App.Server) :
  exists st' response status,
    route request st = (st', Return (response, status))
    /\ (status = 200 \/ status = 400 \/ status = 500)
    /\ (status = 400 <-> App.refused request)
    /\ (status = 400 -> st' = st /\ response !! "success" = Some (PBool false)).
Proof.
  unfold App.parse_statement, App.refused.
  destruct (App.files request !! "file") as [file|] eqn:Hf.
  2: { exists st, (failure "No file provided"), 400. unfold ret.
       split_and!; [reflexivity | auto | split; auto | intros _; now rewrite failure_success]. }
  destruct (String.eqb_spec (App.filename file) "") as [Hn|Hn].
  { exists st, (failure "No file selected"), 400. unfold ret.
    split_and!; [reflexivity | auto | split; eauto | intros _; now rewrite failure_success]. }
  destruct (allowed_file_returns (App.filename file)) as [b Hb].
  unfold bind at 1. unfold lift. rewrite Hb. destruct b; cbn [negb].
  2: { exists st, (failure "Only PDF files are allowed"), 400. unfold ret.
       split_and!; [reflexivity | auto | split; eauto | intros _; now rewrite failure_success]. }
  assert (N : ~ (Some file = None
                 \/ exists file', Some file = Some file'
                      /\ (App.filename file' = ""
                          \/ App.allowed_file (App.filename file') = Return false))).
  { intros [[=]|(f' & [= <-] & [H|H])]; [contradiction | congruence]. }
  match goal with
  | |- context [try_except ?m _ _ st] =>
      assert (A : App.answers_with 200 m);
      [|unfold try_except, is_Exception; destruct (m st) as [s1 [[response k]|e]] eqn:R]
  end.
  - cbv zeta. repeat (apply answers_with_bind; intros ?). apply answers_with_ret.
  - apply A in R. subst k. exists s1, response, 200.
    split_and!; [reflexivity | auto | split; [discriminate | tauto] | discriminate].
  - exists s1, (failure (exn_str e)), 500. unfold ret.
    split_and!; [reflexivity | auto | split; [discriminate | tauto] | discriminate].
Qed.

(** What the three theorems below share: an upload that is accepted and
    saved, and a parse that returns. *)
Lemma route_parsed (request : App.Request) (st : App.Server) (file : App.FileStorage)
    (log' : list event) (r : dict) :
  App.files request !! "file" = Some file ->
  String.eqb (App.filename file) "" = false ->
  App.allowed_file (App.filename file) = Return true ->
  let filepath := App.path_join App.UPLOAD_FOLDER (secure_filename (App.filename file)) in
  App.save file filepath = Return tt ->
  parse json_loads py_repr env {| groq_api_key := getenv_key |} filepath (App.calls st)
  = (log', Return r) ->
  route request st
  = try_except
      (success <- lift (App.getitem r "success") ;;
       result <- (if truthy success
                  then
                    data <- lift (App.getitem r "data") ;;
                    insights <- lift (App.generate_insights_of py_repr py_float data) ;;
                    let result := <["insights" := PList (map App.insight_value insights)]> r in
                    let history_entry :=
                      <["id" := PStr now_isoformat]>
                        (<["filename" := PStr (secure_filename (App.filename file))]>
                           (<["timestamp" := PStr now_strftime]>
                              (<["result" := PDict result]> ∅))) in
                    App.on_history (App.save_history (PDict history_entry)) ;;;
                    ret result
                  else ret r) ;;
       App.os_remove filepath ;;;
       ret (result, 200))
      is_Exception
      (fun e => ret (failure (exn_str e), 500))
      {| App.calls := log'; App.history := App.history st;
         App.disk := {[filepath]} ∪ App.disk st |}.
Proof.
  intros Hf Hn Ha filepath Hs Hp.
  unfold App.parse_statement. rewrite Hf, Hn. unfold bind at 1. unfold lift at 1.
  rewrite Ha. cbn [negb]. cbv zeta. fold filepath.
  unfold try_except. unfold bind at 1. unfold App.file_save. rewrite Hs.
  unfold bind at 1. unfold App.on_calls. cbn [App.calls]. rewrite Hp.
  reflexivity.
Qed.

(** X15.  A parse that fails is answered with status 200: the response is
    the failed result as [parse] returned it, without insights; nothing is
    written to the history, and the uploaded file is removed. *)
Theorem failed_parse_is_answered (request : App.Request) (st : App.Server)
    (file : App.FileStorage) (log' : list event) (r : dict) :
  App.files request !! "file" = Some file ->
  String.eqb (App.filename file) "" = false ->
  App.allowed_file (App.filename file) = Return true ->
  let filepath := App.path_join App.UPLOAD_FOLDER (secure_filename (App.filename file)) in
  App.save file filepath = Return tt ->
  parse json_loads py_repr env {| groq_api_key := getenv_key |} filepath (App.calls st)
  = (log', Return r) ->
  r !! "success" = Some (PBool false) ->
  route request st
  = ({| App.calls := log'; App.history := App.history st;
        App.disk := ({[filepath]} ∪ App.disk st) ∖ {[filepath]} |},
     Return (r, 200)).
Proof.
  intros Hf Hn Ha filepath Hs Hp Hr.
  rewrite (route_parsed request st file log' r Hf Hn Ha Hs Hp). fold filepath.
  unfold try_except, bind, lift, App.getitem. rewrite Hr. cbn [truthy]. unfold ret.
  unfold App.os_remove. cbn [App.disk].
  rewrite bool_decide_true by (apply elem_of_union_l; now apply elem_of_singleton).
  reflexivity.
Qed.

(** X16.  A parse that succeeds is answered with status 200 and the result
    with its insights added; an entry holding that same result is put first
    in the history, which is cut to 20 entries, and the uploaded file is
    removed. *)
Theorem successful_parse_is_recorded (request : App.Request) (st : App.Server)
    (file : App.FileStorage) (log' : list event) (r data : dict) (old : list pyval) :
  App.files request !! "file" = Some file ->
  String.eqb (App.filename file) "" = false ->
  App.allowed_file (App.filename file) = Return true ->
  let filepath := App.path_join App.UPLOAD_FOLDER (secure_filename (App.filename file)) in
  App.save file filepath = Return tt ->
  parse json_loads py_repr env {| groq_api_key := getenv_key |} filepath (App.calls st)
  = (log', Return r) ->
  r !! "success" = Some (PBool true) ->
  r !! "data" = Some (PDict data) ->
  (App.history st = None /\ old = []) \/ App.history st = Some (Return (PList old)) ->
  exists insights,
    generate_insights py_repr py_float data = Return insights
    /\ let response := <["insights" := PList (map App.insight_value insights)]> r in
       let entry :=
         PDict (<["id" := PStr now_isoformat]>
                  (<["filename" := PStr (secure_filename (App.filename file))]>
                     (<["timestamp" := PStr now_strftime]>
                        (<["result" := PDict response]> ∅)))) in
       route request st
       = ({| App.calls := log';
             App.history := Some (Return (PList (firstn 20 (entry :: old))));
             App.disk := ({[filepath]} ∪ App.disk st) ∖ {[filepath]} |},
          Return (response, 200)).
Proof.
  intros Hf Hn Ha filepath Hs Hp Hr Hd Hh.
  destruct (generate_insights_returns py_repr py_float data) as [insights Hi].
  exists insights. split; [exact Hi|]. cbv zeta.
  rewrite (route_parsed request st file log' r Hf Hn Ha Hs Hp). fold filepath.
  unfold try_except, bind, lift, App.getitem. rewrite Hr. cbn [truthy]. rewrite Hd.
  cbn [App.generate_insights_of]. rewrite Hi.
  unfold App.on_history. cbn [App.history].
  rewrite (save_history_step _ _ old Hh). unfold ret.
  unfold App.os_remove. cbn [App.disk App.calls App.history].
  rewrite bool_decide_true by (apply elem_of_union_l; now apply elem_of_singleton).
  reflexivity.
Qed.

(** X17.  When the history file does not hold a list, a successful parse is
    lost: saving the entry raises, the route answers with status 500 and
    the message of the exception, the history file is left as it was, and
    the uploaded file stays on disk. *)
Theorem corrupt_history_loses_result (request : App.Request) (st : App.Server)
    (file : App.FileStorage) (log' : list event) (r data : dict) (v : pyval) :
  App.files request !! "file" = Some file ->
  String.eqb (App.filename file) "" = false ->
  App.allowed_file (App.filename file) = Return true ->
  let filepath := App.path_join App.UPLOAD_FOLDER (secure_filename (App.filename file)) in
  App.save file filepath = Return tt ->
  parse json_loads py_repr env {| groq_api_key := getenv_key |} filepath (App.calls st)
  = (log', Return r) ->
  r !! "success" = Some (PBool true) ->
  r !! "data" = Some (PDict data) ->
  App.history st = Some (Return v) ->
  (forall l, v <> PList l) ->
  route request st
  = ({| App.calls := log'; App.history := App.history st;
        App.disk := {[filepath]} ∪ App.disk st |},
     Return (failure ("'" +:+ type_name v +:+ "' object has no attribute 'insert'"), 500)).
Proof.
  intros Hf Hn Ha filepath Hs Hp Hr Hd Hh Hv.
  destruct (generate_insights_returns py_repr py_float data) as [insights Hi].
  rewrite (route_parsed request st file log' r Hf Hn Ha Hs Hp). fold filepath.
  unfold try_except, bind, lift, App.getitem. rewrite Hr. cbn [truthy]. rewrite Hd.
  cbn [App.generate_insights_of]. rewrite Hi.
  unfold App.on_history. cbn [App.history]. rewrite Hh.
  unfold App.save_history, App.load_history, bind, lift.
  destruct v as [| | | | |l|]; try reflexivity. now destruct (Hv l).
Qed.

End Route.

Lemma failed_parse_witness :
  exists st',
    App.parse_statement Runtime.json_loads Runtime.py_repr Runtime.py_float
      (Sample.world [Sample.text_page Sample.hsbc_page] (Return (Some "I could not extract data.")))
      (fun name => name) (Some "gsk_live") "2024-02-01T10:00:00" "2024-02-01 10:00:00"
      (App.upload "statement.pdf") App.fresh
    = (st', Return (failure "No JSON object found in AI response", 200))
    /\ App.history st' = None.
Proof.
  eexists. split.
  - apply (failed_parse_is_answered Runtime.json_loads Runtime.py_repr Runtime.py_float
             (Sample.world [Sample.text_page Sample.hsbc_page]
                (Return (Some "I could not extract data.")))
             (fun name => name) (Some "gsk_live") "2024-02-01T10:00:00" "2024-02-01 10:00:00"
             (App.upload "statement.pdf") App.fresh
             {| App.filename := "statement.pdf"; App.save := fun _ => Return tt |});
      vm_compute; reflexivity.
  - reflexivity.
Defined.

Lemma successful_parse_witness :
  exists st' insights entry,
    App.parse_statement Runtime.json_loads Runtime.py_repr Runtime.py_float
      (Sample.world [Sample.text_page Sample.hsbc_page] (Return (Some Sample.response2)))
      (fun name => name) (Some "gsk_live") "2024-02-01T10:00:00" "2024-02-01 10:00:00"
      (App.upload "statement.pdf") App.fresh
    = (st', Return (<["insights" := PList insights]> Sample.result2, 200))
    /\ App.history st' = Some (Return (PList [entry])).
Proof.
  destruct (successful_parse_is_recorded Runtime.json_loads Runtime.py_repr Runtime.py_float
              (Sample.world [Sample.text_page Sample.hsbc_page] (Return (Some Sample.response2)))
              (fun name => name) (Some "gsk_live") "2024-02-01T10:00:00" "2024-02-01 10:00:00"
              (App.upload "statement.pdf") App.fresh
              {| App.filename := "statement.pdf"; App.save := fun _ => Return tt |}
              [OpenPdf "uploads/statement.pdf"; ExtractText 1;
               ChatCompletion (build_prompt Sample.hsbc_page)]
              Sample.result2
              (<["issuer" := PStr "HSBC"]>
                 (<["card_last4" := PStr "1234"]>
                    (<["statement_date" := PStr "2024-01-01"]>
                       (<["due_date" := PStr "2024-01-25"]>
                          (<["total_balance" := PStr "500"]>
                             (<["minimum_payment" := PStr "25"]> ∅))))))
              [])
    as (insights & _ & R); try (vm_compute; reflexivity).
  { left. split; reflexivity. }
  eexists _, _, _. split; [exact R | reflexivity].
Defined.

Lemma corrupt_history_witness :
  exists st',
    App.parse_statement Runtime.json_loads Runtime.py_repr Runtime.py_float
      (Sample.world [Sample.text_page Sample.hsbc_page] (Return (Some Sample.response2)))
      (fun name => name) (Some "gsk_live") "2024-02-01T10:00:00" "2024-02-01 10:00:00"
      (App.upload "statement.pdf") App.corrupt
    = (st', Return (failure "'dict' object has no attribute 'insert'", 500))
    /\ "uploads/statement.pdf" ∈ App.disk st'
    /\ App.history st' = App.history App.corrupt.
Proof.
  eexists. split.
  - apply (corrupt_history_loses_result Runtime.json_loads Runtime.py_repr Runtime.py_float
             (Sample.world [Sample.text_page Sample.hsbc_page] (Return (Some Sample.response2)))
             (fun name => name) (Some "gsk_live") "2024-02-01T10:00:00" "2024-02-01 10:00:00"
             (App.upload "statement.pdf") App.corrupt
             {| App.filename := "statement.pdf"; App.save := fun _ => Return tt |}
             [OpenPdf "uploads/statement.pdf"; ExtractText 1;
              ChatCompletion (build_prompt Sample.hsbc_page)]
             Sample.result2
             (<["issuer" := PStr "HSBC"]>
                (<["card_last4" := PStr "1234"]>
                   (<["statement_date" := PStr "2024-01-01"]>
                      (<["due_date" := PStr "2024-01-25"]>
                         (<["total_balance" := PStr "500"]>
                            (<["minimum_payment" := PStr "25"]> ∅))))))
             (PDict ∅));
      try (vm_compute; reflexivity). discriminate.
  - split; [|reflexivity]. cbn [App.disk]. set_solver.
Defined.
